(** * Code-review agent: pipeline orchestrator, command sandbox and request
      normalisation, embedded from [src/agent/agent.py], [src/agent/main.py],
      [src/tools/bash_tool.py], [src/utils/structure_output.py] and
      [src/common.py]. *)

From Stdlib Require Import ZArith NArith Lia List String Ascii Bool.
From Stdlib Require Import Strings.Byte.
From Stdlib Require Import Floats.SpecFloat.
From stdpp Require Import base option list gmap strings pretty.

Local Open Scope N_scope.

(* ===================================================================== *)
(** ** The Python values the program manipulates *)
(* ===================================================================== *)

Module Py.

(** A Python [str] is a sequence of Unicode code points; [bytes] is a
    sequence of octets. *)
Abbreviation codepoint := N (only parsing).
Abbreviation str := (list N) (only parsing).
Abbreviation bytes := (list byte) (only parsing).

Definition in_range (lo hi b : N) : bool := (lo <=? b) && (b <=? hi).
Definition is_cont (b : N) : bool := in_range 128 191 b.

(** [bytes.decode("utf-8")] with the default (strict) error handler: the
    well-formed byte sequences of the Unicode standard (no overlong forms,
    no surrogates, nothing above U+10FFFF); [None] stands for
    [UnicodeDecodeError]. *)
Fixpoint utf8_decode (bs : list N) : option str :=
  match bs with
  | [] => Some []
  | b0 :: r0 =>
    if b0 <? 128 then cons b0 <$> utf8_decode r0
    else if in_range 194 223 b0 then
      match r0 with
      | b1 :: r1 =>
        if is_cont b1
        then cons ((b0 - 192) * 64 + (b1 - 128)) <$> utf8_decode r1
        else None
      | _ => None
      end
    else if in_range 224 239 b0 then
      match r0 with
      | b1 :: b2 :: r2 =>
        if in_range (if b0 =? 224 then 160 else 128)
                    (if b0 =? 237 then 159 else 191) b1 && is_cont b2
        then cons ((b0 - 224) * 4096 + (b1 - 128) * 64 + (b2 - 128))
               <$> utf8_decode r2
        else None
      | _ => None
      end
    else if in_range 240 244 b0 then
      match r0 with
      | b1 :: b2 :: b3 :: r3 =>
        if in_range (if b0 =? 240 then 144 else 128)
                    (if b0 =? 244 then 143 else 191) b1
           && is_cont b2 && is_cont b3
        then cons ((b0 - 240) * 262144 + (b1 - 128) * 4096
                   + (b2 - 128) * 64 + (b3 - 128))
               <$> utf8_decode r3
        else None
      | _ => None
      end
    else None
  end.

Definition decode_utf8 (b : bytes) : option str :=
  utf8_decode (map Byte.to_N b).

(** A string literal of the source, as the code points it denotes. *)
Definition lit (s : string) : str :=
  default [] (utf8_decode (map Byte.to_N (list_byte_of_string s))).

Definition str_eqb (a b : str) : bool := bool_decide (a = b).

(** [len(s)] and the slice [s[:n]] for an [int] n (a negative bound counts
    from the end, and the slice is empty when it reaches before the start). *)
Definition len {A} (s : list A) : Z := Z.of_nat (length s).

Definition slice_to {A} (s : list A) (n : Z) : list A :=
  if (0 <=? n)%Z then take (Z.to_nat n) s
  else take (Z.to_nat (len s + n)) s.

(** [str(i)] for an [int]. *)
Definition str_of_int (z : Z) : str := lit (pretty z).

(** Values that reach the program from JSON bodies, and the dictionaries and
    lists it builds itself.  A [dict] is kept as its items in insertion
    order. *)
#[local] Unset Elimination Schemes.
Inductive value :=
| VNone
| VBool (b : bool)
| VInt (z : Z)
| VFloat (f : spec_float)
| VStr (s : str)
| VList (l : list value)
| VDict (items : list (str * value)).
#[local] Set Elimination Schemes.

Abbreviation dict := (list (str * value)) (only parsing).

(** [bool(v)], the truth value used by [if v], [not v] and [a or b]. *)
Definition truthy (v : value) : bool :=
  match v with
  | VNone => false
  | VBool b => b
  | VInt z => negb (z =? 0)%Z
  | VFloat (S754_zero _) => false
  | VFloat _ => true
  | VStr s => negb (bool_decide (s = []))
  | VList l => match l with [] => false | _ => true end
  | VDict d => match d with [] => false | _ => true end
  end.

Fixpoint dict_get (k : str) (d : dict) : option value :=
  match d with
  | [] => None
  | (k', v) :: d' => if str_eqb k' k then Some v else dict_get k d'
  end.

Definition dict_has (k : str) (d : dict) : bool :=
  match dict_get k d with Some _ => true | None => false end.

(** [d[k] = v]: overwrite in place when the key exists, append otherwise. *)
Fixpoint dict_set (k : str) (v : value) (d : dict) : dict :=
  match d with
  | [] => [(k, v)]
  | (k', v') :: d' =>
    if str_eqb k' k then (k', v) :: d' else (k', v') :: dict_set k v d'
  end.

Definition dict_keys (d : dict) : list str := map fst d.

(** A well-formed [dict] holds each key once. *)
Definition dict_wf (d : dict) : Prop := NoDup (dict_keys d).

(** [v == s] for a [str] s: only an equal [str] compares equal. *)
Definition eq_str (v : value) (s : str) : bool :=
  match v with VStr s' => str_eqb s' s | _ => false end.

(** [v in l] for a list of [str]. *)
Definition in_str_list (v : value) (l : list str) : bool :=
  existsb (eq_str v) l.

(** The two tables of the Unicode database that the modelled code consults:
    the decimal digits (category Nd, the class written \d in a [str]
    pattern) and the printable characters (consulted by [repr] above U+007F
    only).  They depend on the interpreter's Unicode version, so they are an
    interface here; on ASCII the digits are 0 to 9.  The rendering of
    numbers, lists and dictionaries inside an f-string is part of the same
    interface. *)
Class UnicodeData := {
  isdecimal : codepoint -> bool;
  isprintable : codepoint -> bool;
  isdecimal_ascii : forall c, c < 128 -> isdecimal c = in_range 48 57 c;
  (** [str(v)] as an f-string renders a value that is not a [str] *)
  format_value : value -> str
}.

Definition hexdigit (n : N) : codepoint :=
  if n <? 10 then 48 + n else 87 + n.

(** The last [k] hexadecimal digits of [c], most significant first. *)
Fixpoint hex (k : nat) (c : N) : str :=
  match k with
  | O => []
  | S k' => hex k' (c / 16) ++ [hexdigit (c mod 16)]
  end.

Section Repr.
Context `{UnicodeData}.

(** One character inside [repr(s)], given the chosen quote. *)
Definition repr_char (quote c : codepoint) : str :=
  if (c =? quote) || (c =? 92) then [92; c]
  else if c =? 9 then lit "\t"
  else if c =? 10 then lit "\n"
  else if c =? 13 then lit "\r"
  else if (c <? 32) || (c =? 127) then lit "\x" ++ hex 2 c
  else if c <? 127 then [c]
  else if isprintable c then [c]
  else if c <=? 255 then lit "\x" ++ hex 2 c
  else if c <=? 65535 then lit "\u" ++ hex 4 c
  else lit "\U" ++ hex 8 c.

(** [repr(s)] for a [str]: single quotes, unless the string holds a single
    quote and no double quote. *)
Definition repr_str (s : str) : str :=
  let quote : codepoint :=
    if bool_decide (39 ∈ s) && negb (bool_decide (34 ∈ s)) then 34 else 39 in
  [quote] ++ concat (map (repr_char quote) s) ++ [quote].

Fixpoint join (sep : str) (l : list str) : str :=
  match l with
  | [] => []
  | [x] => x
  | x :: l' => x ++ sep ++ join sep l'
  end.

(** [repr(l)] for a list of [str], as an f-string renders [{args}]. *)
Definition repr_list (l : list str) : str :=
  lit "[" ++ join (lit ", ") (map repr_str l) ++ lit "]".

End Repr.

(** Exceptions the modelled code can raise; [OtherException] stands for one
    of any other class, raised by a reasoning worker (a validation error
    of the schema, an error of the model client). *)
Inductive exn :=
| TypeError
| AttributeError
| UnicodeDecodeError
| OSError
| OtherException (class_name : str).

Inductive result (A : Type) :=
| Ok (a : A)
| Raise (e : exn).
Arguments Ok {A} a.
Arguments Raise {A} e.

End Py.
Import Py.

(* ===================================================================== *)
(** ** Command sandbox ([src/tools/bash_tool.py]) *)
(* ===================================================================== *)

Module BashTool.

Definition truncate_str : str := lit "<truncated>".

Record BashTools := {
  allowed_commands : list str;
  truncate_length : option Z;
  working_dir : option str
}.

(** [BashTools.__init__]: a missing list of commands becomes the empty list. *)
Definition init (allowed : option (list str)) (truncate : option Z)
    (cwd : option str) : BashTools :=
  {| allowed_commands := default [] allowed;
     truncate_length := truncate;
     working_dir := cwd |}.

(** What [process.communicate()] hands back once the child has exited. *)
Record Completed := {
  returncode : Z;
  stdout : bytes;
  stderr : bytes
}.

(** A tool invocation interacts with the operating system through
    [asyncio.create_subprocess_exec] only: it either finishes with a result
    or asks for one child process and continues with what the child left. *)
Inductive Proc :=
| Finish (r : result str)
| Spawn (program : str) (argv : list str) (cwd : option str)
        (k : Completed -> Proc).

(** The operating system: the child runs to completion, or it cannot be
    started at all and [create_subprocess_exec] raises. *)
Definition OS := str -> list str -> option str -> result Completed.

Fixpoint run_proc (os : OS) (p : Proc) : result str :=
  match p with
  | Finish r => r
  | Spawn program argv cwd k =>
    match os program argv cwd with
    | Ok c => run_proc os (k c)
    | Raise e => Raise e
    end
  end.

(** The executables a computation starts, in order. *)
Fixpoint launched (os : OS) (p : Proc) : list str :=
  match p with
  | Finish _ => []
  | Spawn program argv cwd k =>
    program :: match os program argv cwd with
               | Ok c => launched os (k c)
               | Raise _ => []
               end
  end.

Section Tools.
Context `{UnicodeData}.

(** [if self.truncate_length and len(output) > self.truncate_length:
    output = output[: self.truncate_length] + truncate_str]; a limit that is
    [None] or 0 is falsy. *)
Definition truncated (self : BashTools) (output : str) : str :=
  match truncate_length self with
  | Some n =>
    if negb (n =? 0)%Z && (len output >? n)%Z
    then slice_to output n ++ truncate_str
    else output
  | None => output
  end.

(** The body of [cli_tool] after the child has exited. *)
Definition cli_tool_finish (self : BashTools) (command : str)
    (args : list str) (process : Completed) : result str :=
  if negb (returncode process =? 0)%Z then
    match decode_utf8 (stderr process) with
    | None => Raise UnicodeDecodeError
    | Some err_msg =>
      let err_str :=
        lit "Command " ++ command ++ lit " " ++ repr_list args
        ++ lit " failed with return code " ++ str_of_int (returncode process)
        ++ lit " and stderr: " ++ err_msg in
      Ok (lit "Error: " ++ err_str)
    end
  else
    match decode_utf8 (stdout process) with
    | None => Raise UnicodeDecodeError
    | Some output => Ok (truncated self output)
    end.

Definition cli_tool (self : BashTools) (command : str) (args : list str) : Proc :=
  Spawn command args (working_dir self)
        (fun process => Finish (cli_tool_finish self command args process)).

(** The callable that [_create_runtime_cli_tool] returns, with the
    [__name__] it is given. *)
Record Tool := {
  tool_name : str;
  tool_call : list str -> Proc
}.

Definition _create_runtime_cli_tool (self : BashTools) (command : str) : Tool :=
  let func_name := command ++ lit "_cli" in
  {| tool_name := func_name; tool_call := cli_tool self command |}.

Definition get_tools (self : BashTools) : list Tool :=
  map (_create_runtime_cli_tool self) (allowed_commands self).

End Tools.

End BashTool.

(* ===================================================================== *)
(** ** The review pipeline ([src/agent/agent.py]) *)
(* ===================================================================== *)

Module Agent.
Import BashTool.

(** *** Schemas (the pydantic models) *)

Definition is_str (v : value) : bool := match v with VStr _ => true | _ => false end.
Definition is_int (v : value) : bool := match v with VInt _ => true | _ => false end.
Definition is_bool (v : value) : bool := match v with VBool _ => true | _ => false end.
Definition is_none (v : value) : bool := match v with VNone => true | _ => false end.

(** A required field of the given type. *)
Definition required (k : string) (ty : value -> bool) (d : dict) : bool :=
  match dict_get (lit k) d with Some v => ty v | None => false end.

(** A field declared [Optional[...] = None]. *)
Definition optional (k : string) (ty : value -> bool) (d : dict) : bool :=
  match dict_get (lit k) d with Some v => is_none v || ty v | None => true end.

(** A model instance written out as a [dict]: declared fields only, each
    once. *)
Definition fields_within (names : list string) (d : dict) : bool :=
  bool_decide (NoDup (dict_keys d))
  && forallb (fun k => bool_decide (k ∈ map lit names)) (dict_keys d).

Definition conforms_ReviewComment (v : value) : bool :=
  match v with
  | VDict d =>
    fields_within ["file_path"; "line_number"; "comment"; "severity"; "category"] d
    && required "file_path" is_str d
    && required "line_number" is_int d
    && required "comment" is_str d
    && required "severity" is_str d
    && required "category" is_str d
  | _ => false
  end.

Definition conforms_Issue (v : value) : bool :=
  match v with
  | VDict d =>
    fields_within ["category"; "severity"; "description"; "file_path";
                   "line_number"; "suggestion"] d
    && required "category" is_str d
    && required "severity" is_str d
    && required "description" is_str d
    && required "file_path" is_str d
    && optional "line_number" is_int d
    && optional "suggestion" is_str d
  | _ => false
  end.

Definition is_list_of (ty : value -> bool) (v : value) : bool :=
  match v with VList l => forallb ty l | _ => false end.

Definition conforms_ReviewResult (v : value) : bool :=
  match v with
  | VDict d =>
    fields_within ["review_summary"; "comments_added"; "issues_found";
                   "approval_recommendation"; "success"; "error"] d
    && required "review_summary" is_str d
    && required "comments_added" (is_list_of conforms_ReviewComment) d
    && required "issues_found" (is_list_of conforms_Issue) d
    && required "approval_recommendation" is_str d
    && required "success" is_bool d
    && optional "error" is_str d
  | _ => false
  end.

(** What an agent built with [output_schema=ReviewResult] may store: a value
    that passed validation against the schema. *)
Record Validated := {
  val : value;
  val_ok : conforms_ReviewResult val = true
}.

(** *** Events, the invocation context and the generator monad *)

Record Content := { role : str; text : str }.
Record Event := { author : str; content : option Content }.

Definition mk_event (self_name : str) (role text : string) : Event :=
  {| author := self_name;
     content := Some {| role := lit role; text := lit text |} |}.

(** One run: [ctx.session.state], [ctx.branch] with the history of the
    names assigned to it, and the events yielded so far, each with the
    session state its consumer finds when it receives the event. *)
Record Run := {
  state : gmap string value;
  branch : option str;
  branches : list str;
  emitted : list (Event * gmap string value)
}.

Definition start (session_state : gmap string value) : Run :=
  {| state := session_state; branch := None; branches := []; emitted := [] |}.

(** A generator step either goes on, ends the generator ([return]) or
    raises. *)
Inductive step (A : Type) :=
| Continue (a : A)
| Stop
| Fail (e : exn).
Arguments Continue {A} a.
Arguments Stop {A}.
Arguments Fail {A} e.

Definition Gen (A : Type) : Type := Run -> step A * Run.

#[export] Instance gen_ret : MRet Gen := fun A a r => (Continue a, r).
#[export] Instance gen_bind : MBind Gen := fun A B f m r =>
  match m r with
  | (Continue a, r') => f a r'
  | (Stop, r') => (Stop, r')
  | (Fail e, r') => (Fail e, r')
  end.

Definition stop {A} : Gen A := fun r => (Stop, r).
Definition get_state : Gen (gmap string value) := fun r => (Continue (state r), r).

Definition lift {A} (x : result A) : Gen A := fun r =>
  match x with Ok a => (Continue a, r) | Raise e => (Fail e, r) end.

Definition set_state (k : string) (v : value) : Gen unit := fun r =>
  (Continue tt,
   {| state := <[k := v]> (state r); branch := branch r;
      branches := branches r; emitted := emitted r |}).

Definition set_branch (name : str) : Gen unit := fun r =>
  (Continue tt,
   {| state := state r; branch := Some name;
      branches := branches r ++ [name]; emitted := emitted r |}).

Definition yield (ev : Event) : Gen unit := fun r =>
  (Continue tt,
   {| state := state r; branch := branch r; branches := branches r;
      emitted := emitted r ++ [(ev, state r)] |}).

(** What a reasoning worker does when it is run: the events it produces,
    each possibly storing a value under the worker's [output_key], and the
    exception it raises after them, if it raises. *)
Record Outcome (V : Type) := {
  events : list (Event * option V);
  raises : option exn
}.
Arguments events {V} o.
Arguments raises {V} o.

Definition deliver (output_key : string) (r : Run) (e : Event * option value) : Run :=
  let st := match e.2 with
            | Some v => <[output_key := v]> (state r)
            | None => state r
            end in
  {| state := st; branch := branch r; branches := branches r;
     emitted := emitted r ++ [(e.1, st)] |}.

(** [async for event in agent.run_async(ctx): yield event]; nothing
    catches what the worker raises. *)
Definition run_async (output_key : string) (out : Outcome value) : Gen unit :=
  fun r =>
  (match raises out with Some e => Fail e | None => Continue tt end,
   fold_left (deliver output_key) (events out) r).

(** *** Parsing the pull-request URL *)

Record PRInfo := { owner : str; repo : str; pr_number : str }.

(** The text after a literal prefix, if the text starts with it. *)
Fixpoint strip_prefix (p s : str) : option str :=
  match p, s with
  | [], _ => Some s
  | a :: p', b :: s' => if a =? b then strip_prefix p' s' else None
  | _ :: _, [] => None
  end.

(** The longest leading run of characters in a class, and the rest. *)
Fixpoint span (f : codepoint -> bool) (s : str) : str * str :=
  match s with
  | [] => ([], [])
  | c :: s' => if f c then let (run, rest) := span f s' in (c :: run, rest)
               else ([], s)
  end.

Definition not_slash (c : codepoint) : bool := negb (c =? 47).

Section Pipeline.
Context `{UnicodeData}.

(** [re.match(r'https://github\.com/([^/]+)/([^/]+)/pull/(\d+)', url)]:
    the pattern is anchored at the start only; each group is greedy, and a
    group of non-slash characters is always followed by a slash, so the
    first match takes the longest run for every group. *)
Definition match_pr_url (url : str) : option PRInfo :=
  rest ← strip_prefix (lit "https://github.com/") url;
  let (g1, rest) := span not_slash rest in
  if bool_decide (g1 = []) then None else
  rest ← strip_prefix (lit "/") rest;
  let (g2, rest) := span not_slash rest in
  if bool_decide (g2 = []) then None else
  rest ← strip_prefix (lit "/pull/") rest;
  let (g3, rest) := span isdecimal rest in
  if bool_decide (g3 = []) then None else
  Some {| owner := g1; repo := g2; pr_number := g3 |}.

(** [_parse_pr_url]; [re.match] raises [TypeError] on a value that is not a
    string. *)
Definition _parse_pr_url (url : value) : result (option PRInfo) :=
  match url with
  | VStr s => Ok (match_pr_url s)
  | _ => Raise TypeError
  end.

(** *** The reasoning workers *)

(** The [LlmAgent]s are external: each is given what its instruction is
    built from, its tools and the session state, and answers with an
    outcome.  The agent that restates the draft is built with
    [output_schema=ReviewResult], so what it stores has passed validation. *)
Record Workers := {
  fetch_pr_details : PRInfo -> list Tool -> gmap string value -> Outcome value;
  analyze_code_changes :
    value -> value -> value -> gmap string value -> Outcome value;
  generate_review_comments : value -> gmap string value -> Outcome value;
  structure_output_agent : gmap string value -> Outcome Validated;
  post_review_comments :
    PRInfo -> value -> list Tool -> gmap string value -> Outcome value
}.

(** The values a validated outcome stores. *)
Definition validated_values (out : Outcome Validated) : Outcome value :=
  {| events := map (fun e => (e.1, val <$> e.2)) (events out);
     raises := raises out |}.

Variable W : Workers.
Variable self_name : str.

Definition gh_tools : list Tool :=
  get_tools (init (Some [lit "gh"; lit "curl"; lit "jq"]) None None).

Definition _fetch_pr_details (pr_info : PRInfo) : Gen unit :=
  set_branch (lit "fetch_pr_details");;
  st ← get_state;
  run_async "pr_details" (fetch_pr_details W pr_info gh_tools st).

Definition _analyze_code_changes (review_criteria severity_threshold : value)
    : Gen unit :=
  st ← get_state;
  let pr_details := default (VStr []) (st !! "pr_details") in
  set_branch (lit "analyze_code_changes");;
  st ← get_state;
  run_async "code_analysis"
    (analyze_code_changes W pr_details review_criteria severity_threshold st).

(** [structure_output] of [src/utils/structure_output.py], at its only call. *)
Definition structure_output : Gen unit :=
  set_branch (lit "structure_output_raw_review_comments_review_comments");;
  st ← get_state;
  run_async "review_comments" (validated_values (structure_output_agent W st)).

Definition _generate_review_comments : Gen unit :=
  st ← get_state;
  let code_analysis := default (VStr []) (st !! "code_analysis") in
  set_branch (lit "generate_review_comments");;
  st ← get_state;
  run_async "raw_review_comments" (generate_review_comments W code_analysis st);;
  st ← get_state;
  if bool_decide (is_Some (st !! "raw_review_comments"))
  then structure_output
  else mret tt.

Definition _post_review_comments (pr_info : PRInfo) : Gen unit :=
  st ← get_state;
  let review_comments := default (VDict []) (st !! "review_comments") in
  set_branch (lit "post_review_comments");;
  st ← get_state;
  run_async "post_result"
    (post_review_comments W pr_info review_comments gh_tools st).

Definition fallback_result : value :=
  VDict [ (lit "review_summary", VStr (lit "Code review completed"));
          (lit "comments_added", VList []);
          (lit "issues_found", VList []);
          (lit "approval_recommendation", VStr (lit "comment"));
          (lit "success", VBool true);
          (lit "error", VNone) ].

Definition _generate_final_result : Gen unit :=
  st ← get_state;
  let review_comments := default (VDict []) (st !! "review_comments") in
  (if truthy review_comments
   then set_state "final_result" review_comments
   else set_state "final_result" fallback_result);;
  yield (mk_event self_name "system" "Final result generated").

(** [result.get(key, default)] on the stored final result. *)
Definition result_get (res : value) (k : string) (dflt : value) : result value :=
  match res with
  | VDict d => Ok (default dflt (dict_get (lit k) d))
  | _ => Raise AttributeError
  end.

Definition format (v : value) : str :=
  match v with VStr s => s | _ => format_value v end.

(** The body of [_run_async_impl], cut at its numbered steps. *)

Definition check_inputs : Gen PRInfo :=
  st ← get_state;
  (if negb (truthy (default VNone (st !! "pull_request_url")))
   then yield (mk_event self_name "system"
     "No pull_request_url found in session state. Please provide a 'pull_request_url' in the session state.");;
        stop
   else mret tt);;
  let pull_request_url := default VNone (st !! "pull_request_url") in
  pr_info ← lift (_parse_pr_url pull_request_url);
  match pr_info with
  | None =>
    yield (mk_event self_name "system"
      "Invalid pull request URL format. Expected format: https://github.com/owner/repo/pull/123");;
    stop
  | Some pr_info => mret pr_info
  end.

Definition step1_fetch (pr_info : PRInfo) : Gen unit :=
  yield (mk_event self_name "assistant" "🔍 Fetching pull request details...");;
  _fetch_pr_details pr_info;;
  st ← get_state;
  if negb (bool_decide (is_Some (st !! "pr_details")))
  then yield (mk_event self_name "system" "Failed to fetch pull request details.");;
       stop
  else mret tt.

Definition step2_analyze (review_criteria severity_threshold : value) : Gen unit :=
  yield (mk_event self_name "assistant" "🔍 Analyzing code changes...");;
  _analyze_code_changes review_criteria severity_threshold;;
  st ← get_state;
  if negb (bool_decide (is_Some (st !! "code_analysis")))
  then yield (mk_event self_name "system" "Failed to analyze code changes.");;
       stop
  else mret tt.

Definition step3_generate : Gen unit :=
  yield (mk_event self_name "assistant" "💬 Generating review comments...");;
  _generate_review_comments;;
  st ← get_state;
  if negb (bool_decide (is_Some (st !! "review_comments")))
  then yield (mk_event self_name "system" "Failed to generate review comments.");;
       stop
  else mret tt.

Definition step4_post (pr_info : PRInfo) : Gen unit :=
  st ← get_state;
  let post_comments := default (VBool false) (st !! "post_comments") in
  if truthy post_comments
  then yield (mk_event self_name "assistant"
                "📝 Posting review comments to pull request...");;
       _post_review_comments pr_info
  else mret tt.

Definition report_result : Gen unit :=
  st ← get_state;
  match st !! "final_result" with
  | Some res =>
    success ← lift (result_get res "success" VNone);
    summary ← lift (result_get res "review_summary"
                      (VStr (lit "No summary available")));
    let success_msg :=
      if truthy success then lit "✅ Code review completed successfully!"
      else lit "❌ Code review failed." in
    yield {| author := self_name;
             content := Some {| role := lit "assistant";
                                text := success_msg ++ [10; 10]
                                        ++ lit "Summary: " ++ format summary |} |}
  | None => mret tt
  end.

Definition _run_async_impl : Gen unit :=
  st ← get_state;
  pr_info ← check_inputs;
  let review_criteria := default (VDict []) (st !! "review_criteria") in
  let severity_threshold := default (VStr (lit "low")) (st !! "severity_threshold") in
  step1_fetch pr_info;;
  step2_analyze review_criteria severity_threshold;;
  step3_generate;;
  step4_post pr_info;;
  _generate_final_result;;
  report_result.

End Pipeline.

End Agent.

(* ===================================================================== *)
(** ** Request normalisation and the runner ([src/agent/main.py]) *)
(* ===================================================================== *)

Module Main.
Import Agent.

Definition default_criteria : dict :=
  [ (lit "code_quality", VBool true);
    (lit "security", VBool true);
    (lit "performance", VBool true);
    (lit "style", VBool true);
    (lit "documentation", VBool true) ].

(** One turn of the loop [for key, value in criteria.items()]. *)
Definition criteria_step (acc : dict) (kv : str * value) : dict :=
  if dict_has kv.1 acc then dict_set kv.1 (VBool (truthy kv.2)) acc else acc.

Definition validate_review_criteria (criteria : value) : result value :=
  if negb (truthy criteria) then Ok (VDict default_criteria)
  else match criteria with
       | VDict items => Ok (VDict (fold_left criteria_step items default_criteria))
       | _ => Raise AttributeError
       end.

Definition valid_thresholds : list str :=
  [lit "low"; lit "medium"; lit "high"; lit "critical"].

Definition validate_severity_threshold (threshold : value) : value :=
  if negb (in_str_list threshold valid_thresholds) then VStr (lit "low")
  else threshold.

(** The part of [agent_endpoint] that turns a JSON object body into the
    session state: [None] is the 400 reply for a body without
    [pull_request_url], a raised exception becomes the 500 reply. *)
Definition request_session_state (data : dict) : option (result (gmap string value)) :=
  if negb (truthy (VDict data)) || negb (dict_has (lit "pull_request_url") data)
  then None
  else Some
    (let pull_request_url := default VNone (dict_get (lit "pull_request_url") data) in
     match validate_review_criteria
             (default (VDict []) (dict_get (lit "review_criteria") data)) with
     | Raise e => Raise e
     | Ok review_criteria =>
       let severity_threshold :=
         validate_severity_threshold
           (default (VStr (lit "low")) (dict_get (lit "severity_threshold") data)) in
       let post_comments := default (VBool false) (dict_get (lit "post_comments") data) in
       Ok (<["pull_request_url" := pull_request_url]>
           (<["review_criteria" := review_criteria]>
           (<["severity_threshold" := severity_threshold]>
           (<["post_comments" := post_comments]> ∅))))
     end).

Definition app_name : str := lit "code_review_agent".

(** The payload [run_code_review_agent] returns when no result was found. *)
Definition no_result : value :=
  VDict [ (lit "success", VBool false);
          (lit "error", VStr (lit "No result generated"));
          (lit "review_summary", VStr (lit "Failed to complete review"));
          (lit "comments_added", VList []);
          (lit "issues_found", VList []);
          (lit "approval_recommendation", VStr (lit "comment")) ].

(** [final_result or {...}], the value of the [return] statement. *)
Definition returned_payload (final_result : value) : value :=
  if truthy final_result then final_result else no_result.

(** The call [runner.session_service.get_session(session.id)].  The method
    of the session service takes keyword arguments only ([app_name],
    [user_id], [session_id]; [create_session] is called with them a few
    lines above), so the call with the id as a positional argument raises
    [TypeError] before anything is looked up. *)
Definition get_session_by_position : result (option (gmap string value)) :=
  Raise TypeError.

(** The look-up of the final result, written twice in the function:
    [session_data = get_session(session.id)], then
    [if session_data and 'final_result' in session_data.state]. *)
Definition look_up (final_result : value) : result value :=
  match get_session_by_position with
  | Raise e => Raise e
  | Ok session_data =>
    Ok (match session_data with
        | Some st => default final_result (st !! "final_result")
        | None => final_result
        end)
  end.

(** One turn of the loop over the runner's events: an event with content
    makes the function look the session up. *)
Definition observe (final_result : value) (e : Event * gmap string value)
    : result value :=
  match content e.1 with
  | Some _ => look_up final_result
  | None => Ok final_result
  end.

(** The loop; an exception raised in its body ends it at that event. *)
Fixpoint observe_all (yielded : list (Event * gmap string value))
    (final_result : value) : result value :=
  match yielded with
  | [] => Ok final_result
  | e :: rest =>
    match observe final_result e with
    | Ok final_result => observe_all rest final_result
    | Raise x => Raise x
    end
  end.

Section Runner.
Context `{UnicodeData}.
Variable W : Workers.

(** [run_code_review_agent].  The events are consumed as the agent yields
    them: an exception raised in the body of the loop ends the function at
    that event, and the agent is not resumed; what the agent itself raises
    reaches the function once the events before it are consumed. *)
Definition run_code_review_agent (session_state : gmap string value) : result value :=
  let (outcome, r) := _run_async_impl W app_name (start session_state) in
  match observe_all (emitted r) VNone with
  | Raise x => Raise x
  | Ok final_result =>
    match outcome with
    | Fail e => Raise e
    | _ =>
      match (if negb (truthy final_result) then look_up final_result
             else Ok final_result) with
      | Raise x => Raise x
      | Ok final_result => Ok (returned_payload final_result)
      end
    end
  end.

End Runner.

End Main.

(* ===================================================================== *)
(** ** The HTTP endpoint ([agent_endpoint] of [src/agent/main.py]) *)
(* ===================================================================== *)

Module Server.
Import Agent Main.

(** [sub in s] for two [str]: [sub] occurs somewhere in [s]. *)
Fixpoint contains (sub s : str) : bool :=
  match strip_prefix sub s with
  | Some _ => true
  | None => match s with [] => false | _ :: s' => contains sub s' end
  end.

(** ['pull_request_url' not in data] for a body that is not a JSON object:
    membership in a list, a substring test on a string, and [TypeError] on
    a number or a boolean. *)
Definition lacks_url (data : value) : result bool :=
  match data with
  | VDict d => Ok (negb (dict_has (lit "pull_request_url") d))
  | VList l => Ok (negb (existsb (fun v => eq_str v (lit "pull_request_url")) l))
  | VStr s => Ok (negb (contains (lit "pull_request_url") s))
  | _ => Raise TypeError
  end.

(** The body of a reply: a JSON value, or, in the handler of the
    exceptions, the object [{"success": False, "error": str(e)}] for the
    exception caught. *)
Inductive Body :=
| Json (v : value)
| ErrorOf (e : exn).

Record Reply := { status : Z; body : Body }.

Definition bad_request : Reply :=
  {| status := 400;
     body := Json (VDict [ (lit "success", VBool false);
                           (lit "error", VStr (lit "pull_request_url is required")) ]) |}.

Definition server_error (e : exn) : Reply := {| status := 500; body := ErrorOf e |}.

Section Endpoint.
Context `{UnicodeData}.
Variable W : Workers.

(** [agent_endpoint] on the parsed JSON body.  For a JSON object the
    check of the required field and the session state are those of
    [request_session_state]; on any other truthy body that passes the
    check, [data['pull_request_url']] raises [TypeError]. *)
Definition agent_endpoint (data : value) : Reply :=
  match data with
  | VDict d =>
    match request_session_state d with
    | None => bad_request
    | Some (Raise e) => server_error e
    | Some (Ok session_state) =>
      match run_code_review_agent W session_state with
      | Ok res => {| status := 200; body := Json res |}
      | Raise e => server_error e
      end
    end
  | _ =>
    if negb (truthy data) then bad_request
    else match lacks_url data with
         | Raise e => server_error e
         | Ok true => bad_request
         | Ok false => server_error TypeError
         end
  end.

End Endpoint.

End Server.

(* ===================================================================== *)
(** ** Environment and repository helpers ([src/common.py]) *)
(* ===================================================================== *)

Module Common.

(** A call either returns or raises [ValueError] with a message. *)
Inductive outcome (A : Type) :=
| Returned (a : A)
| ValueError (msg : str).
Arguments Returned {A} a.
Arguments ValueError {A} msg.

(** One turn of the loop of [raise_if_env_absent]; [os.environ] is a map
    from names to values. *)
Definition note_absent (environ : gmap (list N) (list N)) (errors : list str)
    (api_key : str) : list str :=
  match environ !! api_key with
  | None => errors ++ [lit "❌ " ++ api_key ++ lit " is not set"]
  | Some _ => errors
  end.

Definition raise_if_env_absent (environ : gmap (list N) (list N))
    (required_api_keys : list str) : outcome unit :=
  let errors := fold_left (note_absent environ) required_api_keys [] in
  if (len errors >? 0)%Z
  then ValueError (lit "The following checks failed:" ++ [10] ++ join [10] errors)
  else Returned tt.

(** The truth value of [os.environ.get(name)]: set and not empty. *)
Definition env_set (environ : gmap (list N) (list N)) (name : string) : bool :=
  match environ !! lit name with
  | Some (_ :: _) => true
  | _ => false
  end.

Definition redeclare_scm_envs (environ : gmap (list N) (list N))
    : gmap (list N) (list N) :=
  if env_set environ "GITHUB_API_KEY"
     && negb (env_set environ "GH_TOKEN" || env_set environ "GITHUB_TOKEN")
  then <[lit "GH_TOKEN" := default [] (environ !! lit "GITHUB_API_KEY")]> environ
  else environ.

(** [s.split(sep)] for a separator of one character. *)
Fixpoint split_on (sep : codepoint) (s : str) : list str :=
  match s with
  | [] => [[]]
  | c :: s' =>
    if c =? sep then [] :: split_on sep s'
    else match split_on sep s' with
         | x :: xs => (c :: x) :: xs
         | [] => [[c]]
         end
  end.

(** [s.replace(".git", "")]: every occurrence, left to right, without
    overlap. *)
Fixpoint remove_dot_git (s : str) : str :=
  match s with
  | [] => []
  | a :: s' =>
    match s' with
    | b :: c :: d :: rest =>
      if (a =? 46) && (b =? 103) && (c =? 105) && (d =? 116)
      then remove_dot_git rest
      else a :: remove_dot_git s'
    | _ => a :: remove_dot_git s'
    end
  end.

(** [git_url.split("/")[-1].replace(".git", "")] *)
Definition repo_name_of (git_url : str) : str :=
  remove_dot_git (List.last (split_on 47 git_url) []).

(** What [clone_repository] did: the directory it removed, if any, the
    command it ran, and how it ended. *)
Record Cloned := {
  removed : option str;
  command : list str;
  ended : result (outcome str)
}.

Section Clone.
(** [str(Path.cwd() / name)], whether a path exists, and [git]:
    [Ok None] when the command succeeds, [Ok (Some stderr)] with the
    captured stderr when it exits with a non-zero status
    ([CalledProcessError]), and [Raise e] when running it raises anything
    else (the program is not installed), which the function lets through. *)
Variable under_cwd : str -> str.
Variable path_exists : str -> bool.
Variable run_git : list str -> result (option str).

Definition clone_repository (git_url : str) (branch : option str) : Cloned :=
  let repo_name := repo_name_of git_url in
  let clone_dir := under_cwd (lit "cloned_" ++ repo_name) in
  let with_branch := match branch with Some (_ :: _) => true | _ => false end in
  let cmd :=
    if with_branch
    then [lit "git"; lit "clone"; lit "--branch"; default [] branch; git_url; clone_dir]
    else [lit "git"; lit "clone"; git_url; clone_dir] in
  {| removed := if path_exists clone_dir then Some clone_dir else None;
     command := cmd;
     ended :=
       match run_git cmd with
       | Ok None => Ok (Returned clone_dir)
       | Ok (Some stderr) =>
         Ok (if with_branch
             then ValueError (lit "Failed to clone repository " ++ git_url
                              ++ lit " (branch: " ++ default [] branch
                              ++ lit "): " ++ stderr)
             else ValueError (lit "Failed to clone repository " ++ git_url
                              ++ lit ": " ++ stderr))
       | Raise e => Raise e
       end |}.

End Clone.

End Common.

(* ===================================================================== *)
(** ** Vocabulary of the statements *)
(* ===================================================================== *)

(** The tables restricted to what every Unicode version agrees on for
    ASCII; used to evaluate the model on concrete ASCII inputs. *)
Definition ascii_tables : UnicodeData :=
  {| isdecimal c := in_range 48 57 c;
     isprintable c := false;
     isdecimal_ascii := fun c _ => eq_refl;
     format_value := fun _ => lit "?" |}.

Section Vocabulary.
Import BashTool Agent Main.
Context `{UnicodeData}.

(** The five known review criteria, in the order of the defaults. *)
Definition known_criteria : list str :=
  [lit "code_quality"; lit "security"; lit "performance"; lit "style";
   lit "documentation"].

(** The four severity levels, as values. *)
Definition severity_levels : list value := map VStr valid_thresholds.

(** A non-empty run of characters other than "/". *)
Definition segment (s : str) : Prop := s <> [] /\ 47 ∉ s.

(** A non-empty run of decimal digits. *)
Definition digits (s : str) : Prop :=
  s <> [] /\ Forall (fun c => isdecimal c = true) s.

(** No decimal digit comes first. *)
Definition no_leading_digit (s : str) : Prop :=
  forall c s', s = c :: s' -> isdecimal c = false.

(** [url] begins with https://github.com/<owner>/<repo>/pull/<digits>,
    the digits taken as far as they go. *)
Definition github_pr_prefix (url : str) (info : PRInfo) : Prop :=
  segment (owner info) /\ segment (repo info) /\ digits (pr_number info)
  /\ exists rest,
       url = lit "https://github.com/" ++ owner info ++ lit "/" ++ repo info
             ++ lit "/pull/" ++ pr_number info ++ rest
       /\ no_leading_digit rest.

(** The pattern in the words of the specification,
    https://<host>/<owner>/<repo>/pull/<digits>, for any host. *)
Definition spec_pr_url (url : str) : Prop :=
  exists host o r n,
    segment host /\ segment o /\ segment r /\ digits n
    /\ url = lit "https://" ++ host ++ lit "/" ++ o ++ lit "/" ++ r
             ++ lit "/pull/" ++ n.

(** An invariant of the run that a computation keeps, however it ends. *)
Definition Preserved {A} (I : Run -> Prop) (m : Gen A) : Prop :=
  forall r, I r -> I (m r).2.

(** The names [ctx.branch] takes, and the keys the workers store under,
    before the posting step. *)
Definition early_branches : list str :=
  [lit "fetch_pr_details"; lit "analyze_code_changes";
   lit "generate_review_comments";
   lit "structure_output_raw_review_comments_review_comments"].

Definition early_keys : list string :=
  ["pr_details"; "code_analysis"; "raw_review_comments"; "review_comments"].

(** An invariant that survives everything the stages up to a given point
    do to the run. *)
Definition StableUnder (names : list str) (keys : list string)
    (I : Run -> Prop) : Prop :=
  (forall ev, Preserved I (yield ev))
  /\ (forall n, n ∈ names -> Preserved I (set_branch n))
  /\ (forall k out, k ∈ keys -> Preserved I (run_async k out)).

(** No [final_result] is stored and no event was delivered with one. *)
Definition no_final (r : Run) : Prop :=
  state r !! "final_result" = None
  /\ Forall (fun e => e.2 !! "final_result" = None) (emitted r).

(** The run has grown out of [r0]: the branch history and the events of
    [r0] come first. *)
Definition extends (r0 r : Run) : Prop :=
  branches r0 `prefix_of` branches r /\ emitted r0 `prefix_of` emitted r.

(** The posting worker has not been run. *)
Definition not_posted (r : Run) : Prop :=
  lit "post_review_comments" ∉ branches r.

(** What [_generate_final_result] stores, from the stored review. *)
Definition final_of (st : gmap string value) : value :=
  let review_comments := default (VDict []) (st !! "review_comments") in
  if truthy review_comments then review_comments else fallback_result.

Section Steps.
Variable W : Workers.
Variable name : str.

(** Steps 4 and 5 and the closing report of [_run_async_impl]. *)
Definition last_steps (info : PRInfo) : Gen unit :=
  step4_post W name info;; _generate_final_result name;; report_result name.

(** The run with one more event, delivered with the current state. *)
Definition with_event (r : Run) (role text : string) : Run :=
  (yield (mk_event name role text) r).2.

End Steps.

End Vocabulary.

Section Samples.
Import BashTool Agent Main.

(** A sandbox for the three commands of the agent, with a given limit. *)
Definition gh_sandbox (limit : option Z) : BashTools :=
  init (Some [lit "gh"; lit "curl"; lit "jq"]) limit None.

(** A child that exits with the given status and output. *)
Definition child (code : Z) (out err : bytes) : OS :=
  fun _ _ _ => Ok {| returncode := code; stdout := out; stderr := err |}.

(** Workers that produce no event and store nothing. *)
Definition quiet {V} : Outcome V := {| events := []; raises := None |}.

Definition silent : Workers :=
  {| fetch_pr_details := fun _ _ _ => quiet;
     analyze_code_changes := fun _ _ _ _ => quiet;
     generate_review_comments := fun _ _ => quiet;
     structure_output_agent := fun _ => quiet;
     post_review_comments := fun _ _ _ _ => quiet |}.

(** A review that conforms to the schema, and workers that all store
    their output, except the posting worker, which stores nothing. *)
Definition sample_review : Validated :=
  {| val := VDict [ (lit "review_summary", VStr (lit "Looks fine"));
                    (lit "comments_added", VList []);
                    (lit "issues_found", VList []);
                    (lit "approval_recommendation", VStr (lit "approve"));
                    (lit "success", VBool true) ];
     val_ok := eq_refl |}.

Definition reply {V} (v : V) : Outcome V :=
  {| events := [({| author := lit "worker"; content := None |}, Some v)];
     raises := None |}.

Definition diligent : Workers :=
  {| fetch_pr_details := fun _ _ _ => reply (VStr (lit "diff"));
     analyze_code_changes := fun _ _ _ _ => reply (VStr (lit "analysis"));
     generate_review_comments := fun _ _ => reply (VStr (lit "draft"));
     structure_output_agent := fun _ => reply sample_review;
     post_review_comments := fun _ _ _ _ => quiet |}.





Definition acme_url : str := lit "https://github.com/acme/widgets/pull/42".
Definition gitlab_url : str := lit "https://gitlab.com/acme/widgets/pull/42".

(** The body [{"pull_request_url": url}] and the session state the
    endpoint builds from it. *)
Definition request_for (url : str) : dict := [(lit "pull_request_url", VStr url)].

Definition session_for (url : str) : gmap string value :=
  <["pull_request_url" := VStr url]>
  (<["review_criteria" := VDict default_criteria]>
  (<["severity_threshold" := VStr (lit "low")]>
  (<["post_comments" := VBool false]> ∅))).

End Samples.

(* ===================================================================== *)
(** ** Vocabulary of the further properties *)
(* ===================================================================== *)

Section FurtherVocabulary.
Import BashTool Agent Main.
Context `{UnicodeData}.

(** The keys a run may write: the output keys of the workers and the
    final result. *)
Definition written_keys : list string :=
  ["pr_details"; "code_analysis"; "raw_review_comments"; "review_comments";
   "post_result"; "final_result"].

(** The four keys of the session state the endpoint builds. *)
Definition request_keys : list string :=
  ["pull_request_url"; "review_criteria"; "severity_threshold"; "post_comments"].

(** Every byte is below 128. *)
Definition is_ascii (b : bytes) : Prop := Forall (fun x => Byte.to_N x < 128) b.

(** The branch histories of a computation: what it appends to the history
    when it goes on ([cs]), when it ends the generator ([ss]) and when it
    raises ([fs]). *)
Definition Traces {A} (m : Gen A) (cs ss fs : list (list str)) : Prop :=
  forall r, exists b,
    branches (m r).2 = branches r ++ b
    /\ match (m r).1 with
       | Continue _ => b ∈ cs
       | Stop => b ∈ ss
       | Fail _ => b ∈ fs
       end.

(** Every concatenation of a history of [xs] with one of [ys]. *)
Definition cat_all (xs ys : list (list str)) : list (list str) :=
  flat_map (fun x => map (app x) ys) xs.

(** The orders in which the workers can have run when the run completes,
    and when it was halted. *)
Definition completed_orders : list (list str) :=
  let early := [lit "fetch_pr_details"; lit "analyze_code_changes";
                lit "generate_review_comments"] in
  let fix_ := lit "structure_output_raw_review_comments_review_comments" in
  let post := lit "post_review_comments" in
  [early; early ++ [fix_]; early ++ [post]; early ++ [fix_; post]].

Definition halted_orders : list (list str) :=
  let fetch := lit "fetch_pr_details" in
  let analyze := lit "analyze_code_changes" in
  let generate := lit "generate_review_comments" in
  let fix_ := lit "structure_output_raw_review_comments_review_comments" in
  [[]; [fetch]; [fetch; analyze]; [fetch; analyze; generate];
   [fetch; analyze; generate; fix_]].

(** The orders when the run raises: before any worker, after one of them
    raised, or after all of them. *)
Definition raised_orders : list (list str) := halted_orders ++ completed_orders.

(** An invariant that survives what the stages before posting do with
    the workers [W]: the announcements, the three early branch names, what
    the first three workers deliver, and the corrector, which only runs on
    a stored draft. *)
Definition StableFor (W : Workers) (I : Run -> Prop) : Prop :=
  (forall ev, Preserved I (yield ev))
  /\ (forall n, n ∈ [lit "fetch_pr_details"; lit "analyze_code_changes";
                     lit "generate_review_comments"] ->
        Preserved I (set_branch n))
  /\ (forall info tools st,
        Preserved I (run_async "pr_details" (fetch_pr_details W info tools st)))
  /\ (forall pr rc sv st,
        Preserved I (run_async "code_analysis"
                       (analyze_code_changes W pr rc sv st)))
  /\ (forall ca st,
        Preserved I (run_async "raw_review_comments"
                       (generate_review_comments W ca st)))
  /\ (forall r, I r -> is_Some (state r !! "raw_review_comments") ->
        I (structure_output W r).2).

(** The run has kept the session state [st] outside the keys it may
    write, and has deleted nothing from it. *)
Definition framed (st : gmap string value) (r : Run) : Prop :=
  (forall k, k ∉ written_keys -> state r !! k = st !! k)
  /\ (forall k, is_Some (st !! k) -> is_Some (state r !! k)).

(** The key is stored. *)
Definition stored (k : string) (r : Run) : Prop := is_Some (state r !! k).

Definition is_dict (v : value) : bool :=
  match v with VDict _ => true | _ => false end.

End FurtherVocabulary.

Section FurtherSamples.
Import BashTool Agent Main.

(** Workers that store a draft which the corrector does not restate. *)
Definition unstructured : Workers :=
  {| fetch_pr_details := fun _ _ _ => reply (VStr (lit "diff"));
     analyze_code_changes := fun _ _ _ _ => reply (VStr (lit "analysis"));
     generate_review_comments := fun _ _ => reply (VStr (lit "draft"));
     structure_output_agent := fun _ => quiet;
     post_review_comments := fun _ _ _ _ => quiet |}.

(** Workers whose generating worker stores nothing. *)
Definition undrafted : Workers :=
  {| fetch_pr_details := fun _ _ _ => reply (VStr (lit "diff"));
     analyze_code_changes := fun _ _ _ _ => reply (VStr (lit "analysis"));
     generate_review_comments := fun _ _ => quiet;
     structure_output_agent := fun _ => reply sample_review;
     post_review_comments := fun _ _ _ _ => quiet |}.

End FurtherSamples.

(* ===================================================================== *)
(** ** Facts about dictionaries and membership *)
(* ===================================================================== *)

Section DictFacts.

Lemma str_eqb_true a b : str_eqb a b = true <-> a = b.
Proof. unfold str_eqb. apply bool_decide_eq_true. Qed.

Lemma str_eqb_false a b : str_eqb a b = false <-> a <> b.
Proof. unfold str_eqb. apply bool_decide_eq_false. Qed.

Lemma dict_get_None k d : dict_get k d = None <-> k ∉ dict_keys d.
Proof.
  induction d as [|[k' v] d IH]; simpl.
  - split; [intros _; apply not_elem_of_nil | done].
  - destruct (str_eqb k' k) eqn:E.
    + apply str_eqb_true in E as ->. split; [done|].
      intros Hn. exfalso. apply Hn. left.
    + apply str_eqb_false in E. rewrite not_elem_of_cons.
      split; [intros Hg; split; [congruence|by apply IH]|intros [_ Hn]; by apply IH].
Qed.

Lemma dict_has_true k d : dict_has k d = true <-> k ∈ dict_keys d.
Proof.
  unfold dict_has. destruct (dict_get k d) eqn:E.
  - split; [|done]. intros _.
    destruct (decide (k ∈ dict_keys d)) as [|Hn]; [done|].
    apply dict_get_None in Hn. congruence.
  - apply dict_get_None in E. split; [done|]. intros; contradiction.
Qed.

Lemma dict_set_keys k v d :
  k ∈ dict_keys d -> dict_keys (dict_set k v d) = dict_keys d.
Proof.
  induction d as [|[k' v'] d IH]; simpl; intros Hin.
  - by apply elem_of_nil in Hin.
  - destruct (str_eqb k' k) eqn:E; simpl; [done|].
    apply str_eqb_false in E. f_equal. apply IH.
    apply elem_of_cons in Hin as [->|]; [congruence|done].
Qed.

Lemma dict_get_set_eq k v d :
  k ∈ dict_keys d -> dict_get k (dict_set k v d) = Some v.
Proof.
  induction d as [|[k' v'] d IH]; simpl; intros Hin.
  - by apply elem_of_nil in Hin.
  - destruct (str_eqb k' k) eqn:E; simpl; rewrite E; [done|].
    apply str_eqb_false in E. apply IH.
    apply elem_of_cons in Hin as [->|]; [congruence|done].
Qed.

Lemma dict_get_set_ne k k' v d :
  k <> k' -> dict_get k' (dict_set k v d) = dict_get k' d.
Proof.
  intros Hne. induction d as [|[k0 v0] d IH]; simpl.
  - destruct (str_eqb k k') eqn:E; [apply str_eqb_true in E; congruence|done].
  - destruct (str_eqb k0 k) eqn:E; simpl.
    + apply str_eqb_true in E as ->.
      destruct (str_eqb k k') eqn:E'; [apply str_eqb_true in E'; congruence|done].
    + destruct (str_eqb k0 k'); [done|apply IH].
Qed.

Lemma in_str_list_spec v l : in_str_list v l = true <-> v ∈ map VStr l.
Proof.
  unfold in_str_list. rewrite existsb_exists, list_elem_of_fmap.
  split.
  - intros (s & Hin & Heq). exists s. split; [|by apply list_elem_of_In].
    destruct v; simpl in Heq; try discriminate.
    by apply str_eqb_true in Heq as ->.
  - intros (s & -> & Hin). exists s. split; [by apply list_elem_of_In|].
    simpl. by apply str_eqb_true.
Qed.

End DictFacts.

(* ===================================================================== *)
(** ** Request normalisation *)
(* ===================================================================== *)

Section Normalisation.
Import Main.

Lemma criteria_step_keys acc kv :
  dict_keys (criteria_step acc kv) = dict_keys acc.
Proof.
  unfold criteria_step. destruct (dict_has kv.1 acc) eqn:E; [|done].
  apply dict_set_keys. by apply dict_has_true.
Qed.

Lemma criteria_fold_keys items acc :
  dict_keys (fold_left criteria_step items acc) = dict_keys acc.
Proof.
  revert acc. induction items as [|kv items IH]; intros acc; simpl; [done|].
  by rewrite IH, criteria_step_keys.
Qed.

Lemma criteria_fold_get items : forall acc k,
  dict_wf items -> k ∈ dict_keys acc ->
  dict_get k (fold_left criteria_step items acc) =
    match dict_get k items with
    | Some v => Some (VBool (truthy v))
    | None => dict_get k acc
    end.
Proof.
  induction items as [|[k0 v0] items IH]; intros acc k Hwf Hin; simpl; [done|].
  apply NoDup_cons in Hwf as [Hfresh Hwf].
  rewrite IH; [|done|by rewrite criteria_step_keys].
  unfold criteria_step; simpl.
  destruct (str_eqb k0 k) eqn:E.
  - apply str_eqb_true in E as ->.
    assert (dict_get k items = None) as -> by by apply dict_get_None.
    assert (dict_has k acc = true) as -> by by apply dict_has_true.
    by apply dict_get_set_eq.
  - apply str_eqb_false in E.
    destruct (dict_get k items); [done|].
    destruct (dict_has k0 acc); [|done]. by apply dict_get_set_ne.
Qed.

Lemma request_session_state_criteria data st :
  request_session_state data = Some (Ok st) ->
  Ok <$> st !! "review_criteria" =
    Some (validate_review_criteria
            (default (VDict []) (dict_get (lit "review_criteria") data))).
Proof.
  unfold request_session_state. destruct (_ || _); [done|].
  destruct (validate_review_criteria _) as [rc|]; [|done].
  intros [= <-]. rewrite lookup_insert_ne by done. by rewrite lookup_insert_eq.
Qed.

(** C8. For every mapping [criteria] the caller supplies, the normalised
    criteria hold exactly the five known keys (unknown keys are dropped),
    each with a boolean: the truth value of the caller's entry when there
    is one, [True] otherwise.  An empty mapping gives all five [True], and
    so does a request that carries no mapping at all. *)
Theorem validate_review_criteria_normalises (criteria : dict) :
  dict_wf criteria ->
  exists out,
    validate_review_criteria (VDict criteria) = Ok (VDict out)
    /\ dict_keys out = known_criteria
    /\ (forall k, k ∈ known_criteria ->
          dict_get k out =
            Some (VBool (match dict_get k criteria with
                         | Some v => truthy v
                         | None => true
                         end)))
    /\ (forall k, k ∉ known_criteria -> dict_get k out = None)
    /\ (criteria = [] -> out = map (fun k => (k, VBool true)) known_criteria)
    /\ (forall data st,
          dict_get (lit "review_criteria") data = None ->
          request_session_state data = Some (Ok st) ->
          st !! "review_criteria"
            = Some (VDict (map (fun k => (k, VBool true)) known_criteria))).
Proof.
  intros Hwf.
  assert (Habsent : forall data st,
    dict_get (lit "review_criteria") data = None ->
    request_session_state data = Some (Ok st) ->
    st !! "review_criteria"
      = Some (VDict (map (fun k => (k, VBool true)) known_criteria))).
  { intros data st Hnone Hreq. apply request_session_state_criteria in Hreq.
    rewrite Hnone in Hreq. simpl in Hreq.
    destruct (st !! "review_criteria"); [|done]. by injection Hreq as ->. }
  unfold validate_review_criteria.
  destruct criteria as [|kv items].
  - exists default_criteria. split; [done|]. split; [done|].
    split; [|split; [|done]].
    + intros k Hk.
      repeat (apply elem_of_cons in Hk as [->|Hk]; [done|]).
      by apply elem_of_nil in Hk.
    + intros k Hk. by apply (proj2 (dict_get_None k default_criteria)).
  - exists (fold_left criteria_step (kv :: items) default_criteria).
    split; [done|]. split; [apply criteria_fold_keys|].
    split; [|split; [|done]].
    + intros k Hk. rewrite criteria_fold_get; [|done|done].
      destruct (dict_get k (kv :: items)); [done|].
      repeat (apply elem_of_cons in Hk as [->|Hk]; [done|]).
      by apply elem_of_nil in Hk.
    + intros k Hk. apply dict_get_None. by rewrite criteria_fold_keys.
Qed.

Lemma validate_review_criteria_normalises_witness :
  let criteria := [(lit "style", VInt 0); (lit "verbose", VBool true)] in
  dict_wf criteria /\
  exists out,
    validate_review_criteria (VDict criteria) = Ok (VDict out)
    /\ dict_keys out = known_criteria
    /\ dict_get (lit "style") out = Some (VBool false)
    /\ dict_get (lit "security") out = Some (VBool true)
    /\ dict_get (lit "verbose") out = None.
Proof.
  intros criteria.
  assert (Hwf : dict_wf criteria).
  { unfold dict_wf. apply (bool_decide_unpack (NoDup (dict_keys criteria))).
    vm_compute. exact I. }
  split; [exact Hwf|].
  destruct (validate_review_criteria_normalises criteria Hwf)
    as (out & Hout & Hkeys & Hknown & Hunknown & _).
  exists out. split; [exact Hout|]. split; [exact Hkeys|].
  split; [|split].
  - apply (Hknown (lit "style")). vm_compute.
    do 3 apply list_elem_of_further. apply list_elem_of_here.
  - apply (Hknown (lit "security")). vm_compute.
    apply list_elem_of_further, list_elem_of_here.
  - apply Hunknown. apply (bool_decide_unpack _). vm_compute. exact I.
Defined.

(** C9. A severity threshold outside low, medium, high, critical is
    replaced by "low", one inside is kept; and this is the threshold the
    endpoint places in the session state for the pipeline. *)
Theorem validate_severity_threshold_effective (threshold : value) :
  (threshold ∉ severity_levels ->
     validate_severity_threshold threshold = VStr (lit "low"))
  /\ (threshold ∈ severity_levels ->
        validate_severity_threshold threshold = threshold)
  /\ (forall data st,
        default (VStr (lit "low")) (dict_get (lit "severity_threshold") data)
          = threshold ->
        request_session_state data = Some (Ok st) ->
        st !! "severity_threshold" = Some (validate_severity_threshold threshold)).
Proof.
  unfold validate_severity_threshold, severity_levels.
  split; [|split].
  - intros Hn. destruct (in_str_list threshold valid_thresholds) eqn:E; [|done].
    apply in_str_list_spec in E. contradiction.
  - intros Hin. apply in_str_list_spec in Hin. by rewrite Hin.
  - intros data st Hreq. unfold request_session_state.
    destruct (_ || _); [done|].
    destruct (validate_review_criteria _); [|done].
    intros [= <-]. rewrite Hreq.
    unfold validate_severity_threshold.
    by repeat (rewrite lookup_insert_ne by done); rewrite lookup_insert_eq.
Qed.

Lemma validate_severity_threshold_effective_witness :
  let data := [(lit "pull_request_url", VStr (lit "https://github.com/acme/widgets/pull/42"));
               (lit "severity_threshold", VStr (lit "urgent"))] in
  (VStr (lit "urgent") ∉ severity_levels)
  /\ validate_severity_threshold (VStr (lit "urgent")) = VStr (lit "low")
  /\ (VStr (lit "high") ∈ severity_levels)
  /\ validate_severity_threshold (VStr (lit "high")) = VStr (lit "high")
  /\ exists st, request_session_state data = Some (Ok st)
       /\ st !! "severity_threshold" = Some (VStr (lit "low")).
Proof.
  intros data.
  pose proof (validate_severity_threshold_effective (VStr (lit "urgent")))
    as (Hout & _ & Hst).
  pose proof (validate_severity_threshold_effective (VStr (lit "high")))
    as (_ & Hin & _).
  assert (Hn : VStr (lit "urgent") ∉ severity_levels).
  { intros Hx. apply in_str_list_spec in Hx. vm_compute in Hx. discriminate. }
  assert (Hy : VStr (lit "high") ∈ severity_levels).
  { apply in_str_list_spec. vm_compute. reflexivity. }
  split; [exact Hn|]. split; [exact (Hout Hn)|].
  split; [exact Hy|]. split; [exact (Hin Hy)|].
  destruct (request_session_state data) as [[st|]|] eqn:E;
    try (vm_compute in E; discriminate).
  exists st. split; [reflexivity|].
  rewrite (Hst data st eq_refl E), (Hout Hn). reflexivity.
Defined.

End Normalisation.

(* ===================================================================== *)
(** ** The command sandbox *)
(* ===================================================================== *)

Section Sandbox.
Import BashTool.
Context `{UnicodeData}.

Lemma slice_to_nonneg {A} (s : list A) (n : Z) :
  (0 <= n)%Z -> slice_to s n = take (Z.to_nat n) s.
Proof. intros Hn. unfold slice_to. by rewrite (proj2 (Z.leb_le 0 n) Hn). Qed.

Lemma get_tools_lookup self (i : nat) :
  get_tools self !! i
  = _create_runtime_cli_tool self <$> allowed_commands self !! i.
Proof. unfold get_tools. apply list_lookup_fmap. Qed.

(** C4. The capabilities of a sandbox are one per entry of
    [allowed_commands], in list order; the i-th is named after the i-th
    command and every invocation of it starts that executable and nothing
    else.  So whatever a capability of the sandbox starts is in the
    allow-list, and without an allow-list there is no capability. *)
Theorem get_tools_closed_world (self : BashTools) :
  length (get_tools self) = length (allowed_commands self)
  /\ (forall (i : nat) c, allowed_commands self !! i = Some c ->
        exists t, get_tools self !! i = Some t
          /\ tool_name t = c ++ lit "_cli"
          /\ forall os args, launched os (tool_call t args) = [c])
  /\ (forall (i : nat) t, get_tools self !! i = Some t ->
        exists c, allowed_commands self !! i = Some c
          /\ forall os args, launched os (tool_call t args) = [c])
  /\ (forall t os args x,
        t ∈ get_tools self -> x ∈ launched os (tool_call t args) ->
        x ∈ allowed_commands self)
  /\ (forall truncate cwd, get_tools (init None truncate cwd) = []).
Proof.
  assert (Hone : forall c os args,
    launched os (tool_call (_create_runtime_cli_tool self c) args) = [c]).
  { intros c os args. simpl. by destruct (os c args (working_dir self)). }
  split; [unfold get_tools; apply length_fmap|].
  split; [|split; [|split]].
  - intros i c Hc. exists (_create_runtime_cli_tool self c).
    rewrite get_tools_lookup, Hc. auto.
  - intros i t Ht. rewrite get_tools_lookup in Ht.
    destruct (allowed_commands self !! i) as [c|]; [|done].
    injection Ht as <-. exists c. auto.
  - intros t os args x Ht Hx.
    apply list_elem_of_lookup in Ht as [i Ht].
    rewrite get_tools_lookup in Ht.
    destruct (allowed_commands self !! i) as [c|] eqn:Hc; [|done].
    injection Ht as <-. rewrite Hone in Hx.
    apply list_elem_of_singleton in Hx as ->.
    apply list_elem_of_lookup. by exists i.
  - done.
Qed.

(** C3, as the code has it.  When the child of an allowed command exits
    with a non-zero status and its captured stderr is valid UTF-8, the
    invocation returns (it does not raise) the string
    "Error: Command <name> <args> failed with return code <code> and
    stderr: <stderr>", where <args> is the argument list as Python prints
    it; the configured truncation does not apply to it. *)
Theorem nonzero_exit_returns_error_string
    (self : BashTools) (os : OS) (c : str) (args : list str)
    (process : Completed) (err_msg : str) :
  c ∈ allowed_commands self ->
  os c args (working_dir self) = Ok process ->
  returncode process <> 0%Z ->
  decode_utf8 (stderr process) = Some err_msg ->
  exists t, t ∈ get_tools self
    /\ tool_name t = c ++ lit "_cli"
    /\ run_proc os (tool_call t args) =
         Ok (lit "Error: Command " ++ c ++ lit " " ++ repr_list args
             ++ lit " failed with return code "
             ++ str_of_int (returncode process)
             ++ lit " and stderr: " ++ err_msg).
Proof.
  intros Hc Hos Hrc Herr.
  exists (_create_runtime_cli_tool self c). split; [|split; [done|]].
  - unfold get_tools. apply list_elem_of_fmap. by exists c.
  - simpl. rewrite Hos. simpl. unfold cli_tool_finish.
    apply Z.eqb_neq in Hrc. rewrite Hrc, Herr. reflexivity.
Qed.

(** C5, as the code has it.  For a successful invocation whose captured
    stdout decodes to the text [output]: with a limit N > 0, an output
    longer than N characters comes back as its first N characters followed
    by "<truncated>", and a shorter one unmodified; with no limit, or the
    limit 0, the output comes back unmodified whatever its length. *)
Theorem successful_output_truncation
    (self : BashTools) (os : OS) (c : str) (args : list str)
    (process : Completed) (output : str) :
  os c args (working_dir self) = Ok process ->
  returncode process = 0%Z ->
  decode_utf8 (stdout process) = Some output ->
  let returned := run_proc os (cli_tool self c args) in
  (forall n, truncate_length self = Some n -> (0 < n)%Z -> (len output > n)%Z ->
     returned = Ok (take (Z.to_nat n) output ++ truncate_str)
     /\ len (take (Z.to_nat n) output) = n)
  /\ (forall n, truncate_length self = Some n -> (0 < n)%Z -> (len output <= n)%Z ->
        returned = Ok output)
  /\ (truncate_length self = None \/ truncate_length self = Some 0%Z ->
        returned = Ok output).
Proof.
  intros Hos Hrc Hout. simpl. rewrite Hos. simpl.
  unfold cli_tool_finish, truncated. rewrite Hrc, Hout. simpl.
  split; [|split].
  - intros n Hn Hpos Hlong. rewrite Hn.
    assert ((n =? 0)%Z = false) as -> by by apply Z.eqb_neq; lia.
    assert ((len output >? n)%Z = true) as -> by by apply Z.gtb_gt.
    simpl. rewrite slice_to_nonneg by lia. split; [done|].
    unfold len in *. rewrite length_take. lia.
  - intros n Hn Hpos Hshort. rewrite Hn.
    assert ((len output >? n)%Z = false) as ->.
    { rewrite Z.gtb_ltb. apply Z.ltb_ge. lia. }
    by rewrite andb_false_r.
  - intros [Hnone|Hzero]; [by rewrite Hnone|by rewrite Hzero].
Qed.

End Sandbox.

Section SandboxExamples.
Import BashTool.
#[local] Existing Instance ascii_tables.

Lemma get_tools_closed_world_witness :
  map tool_name (get_tools (gh_sandbox None))
    = [lit "gh_cli"; lit "curl_cli"; lit "jq_cli"]
  /\ exists t, get_tools (gh_sandbox None) !! 1%nat = Some t
       /\ launched (child 0 [] []) (tool_call t [lit "-s"]) = [lit "curl"].
Proof.
  split; [reflexivity|].
  destruct (get_tools_closed_world (gh_sandbox None)) as (_ & Hith & _).
  destruct (Hith 1%nat (lit "curl") eq_refl) as (t & Ht & _ & Hrun).
  exists t. split; [exact Ht|apply Hrun].
Defined.

Lemma nonzero_exit_returns_error_string_witness :
  exists t, t ∈ get_tools (gh_sandbox None)
    /\ tool_name t = lit "gh_cli"
    /\ run_proc (child 1 [] [x62; x61; x64]) (tool_call t [lit "pr"; lit "view"])
       = Ok (lit "Error: Command gh ['pr', 'view'] failed with return code 1 and stderr: bad").
Proof.
  refine (nonzero_exit_returns_error_string (gh_sandbox None)
            (child 1 [] [x62; x61; x64]) (lit "gh") [lit "pr"; lit "view"]
            {| returncode := 1; stdout := []; stderr := [x62; x61; x64] |}
            (lit "bad") _ eq_refl _ eq_refl).
  - vm_compute. apply list_elem_of_here.
  - discriminate.
Defined.

(** C3 as stated fails: a child of an allowed command that exits with
    status 1 and leaves the single byte 0xFF on stderr makes the invocation
    raise [UnicodeDecodeError]; no string is returned. *)
Lemma nonzero_exit_undecodable_stderr_raises :
  lit "gh" ∈ allowed_commands (gh_sandbox None)
  /\ decode_utf8 [xff] = None
  /\ run_proc (child 1 [] [xff]) (cli_tool (gh_sandbox None) (lit "gh") [lit "pr"])
     = Raise UnicodeDecodeError.
Proof.
  split; [vm_compute; apply list_elem_of_here|]. split; reflexivity.
Qed.

Lemma successful_output_truncation_witness :
  let output := lit "abcdef" in
  let returned limit :=
    run_proc (child 0 [x61; x62; x63; x64; x65; x66] [])
             (cli_tool (gh_sandbox limit) (lit "gh") []) in
  returned (Some 4%Z) = Ok (lit "abcd<truncated>")
  /\ returned (Some 6%Z) = Ok output
  /\ returned None = Ok output
  /\ returned (Some 0%Z) = Ok output.
Proof.
  intros output returned.
  pose proof (fun limit => successful_output_truncation (gh_sandbox limit)
    (child 0 [x61; x62; x63; x64; x65; x66] []) (lit "gh") []
    {| returncode := 0; stdout := [x61; x62; x63; x64; x65; x66]; stderr := [] |}
    output eq_refl eq_refl eq_refl) as Hspec.
  split; [|split; [|split]].
  - destruct (Hspec (Some 4%Z)) as (Hlong & _ & _).
    destruct (Hlong 4%Z eq_refl) as [Hret _]; [lia|vm_compute; reflexivity|].
    exact Hret.
  - destruct (Hspec (Some 6%Z)) as (_ & Hshort & _).
    apply (Hshort 6%Z eq_refl); [lia|vm_compute; discriminate].
  - destruct (Hspec None) as (_ & _ & Hnone). apply Hnone. by left.
  - destruct (Hspec (Some 0%Z)) as (_ & _ & Hnone). apply Hnone. by right.
Defined.

(** C5 as stated fails for the configured limit 0: an output of one
    character is longer than 0 characters, yet it is returned unmodified
    and not as its first 0 characters followed by the marker. *)
Lemma truncation_limit_zero_returns_output :
  let returned :=
    run_proc (child 0 [x61] []) (cli_tool (gh_sandbox (Some 0%Z)) (lit "gh") []) in
  truncate_length (gh_sandbox (Some 0%Z)) = Some 0%Z
  /\ decode_utf8 [x61] = Some (lit "a")
  /\ (len (lit "a") > 0)%Z
  /\ returned = Ok (lit "a")
  /\ returned <> Ok (take 0 (lit "a") ++ truncate_str).
Proof.
  repeat split; try reflexivity. discriminate.
Qed.

End SandboxExamples.

(* ===================================================================== *)
(** ** Parsing the pull-request URL *)
(* ===================================================================== *)

Section UrlPattern.
Import Agent.
Context `{UnicodeData}.

Lemma strip_prefix_app p s : strip_prefix p (p ++ s) = Some s.
Proof. induction p as [|a p IH]; simpl; [done|]. by rewrite N.eqb_refl. Qed.

Lemma strip_prefix_Some p : forall s r, strip_prefix p s = Some r -> s = p ++ r.
Proof.
  induction p as [|a p IH]; intros s r; simpl.
  - by intros [= ->].
  - destruct s as [|b s]; [done|].
    destruct (a =? b) eqn:E; [|done].
    apply N.eqb_eq in E as ->. intros Hr. f_equal. by apply IH.
Qed.

Lemma span_spec f s :
  s = (span f s).1 ++ (span f s).2
  /\ Forall (fun c => f c = true) (span f s).1
  /\ (forall c s', (span f s).2 = c :: s' -> f c = false).
Proof.
  induction s as [|c s (IH1 & IH2 & IH3)]; simpl.
  - repeat split; [constructor|done].
  - destruct (f c) eqn:E.
    + destruct (span f s) as [run rest]; simpl in *.
      repeat split; [by f_equal|by constructor|done].
    + simpl. repeat split; [constructor|]. by intros ? ? [= <- <-].
Qed.

Lemma span_app f a b :
  Forall (fun c => f c = true) a ->
  span f (a ++ b) = (a ++ (span f b).1, (span f b).2).
Proof.
  induction 1 as [|c a Hc _ IH]; simpl; [by destruct (span f b)|].
  by rewrite Hc, IH.
Qed.

Lemma span_stop f c s : f c = false -> span f (c :: s) = ([], c :: s).
Proof. intros Hc. simpl. by rewrite Hc. Qed.

Lemma span_no_leading f s :
  (forall c s', s = c :: s' -> f c = false) -> span f s = ([], s).
Proof.
  destruct s as [|c s]; [done|]. intros Hs. apply span_stop. by eapply Hs.
Qed.

Lemma segment_not_slash s :
  47 ∉ s <-> Forall (fun c => not_slash c = true) s.
Proof.
  rewrite Forall_forall. unfold not_slash. split.
  - intros Hn c Hc. apply negb_true_iff, N.eqb_neq. by intros ->.
  - intros Hall Hin. by apply Hall in Hin.
Qed.

(** A run of non-slash characters ends at a literal that starts with "/". *)
Lemma span_segment o p rest :
  Forall (fun c => not_slash c = true) o -> head p = Some 47 ->
  span not_slash (o ++ p ++ rest) = (o, p ++ rest).
Proof.
  intros Ho Hp. rewrite span_app by done.
  destruct p as [|c p]; [done|]. injection Hp as ->.
  cbn [app]. rewrite span_stop by done. cbn [fst snd]. by rewrite app_nil_r.
Qed.

(** What the pattern does on a text that begins as it asks. *)
Lemma match_pr_url_prefix o r n rest :
  segment o -> segment r -> digits n ->
  match_pr_url (lit "https://github.com/" ++ o ++ lit "/" ++ r
                ++ lit "/pull/" ++ n ++ rest)
  = Some {| owner := o; repo := r;
            pr_number := n ++ (span isdecimal rest).1 |}.
Proof.
  intros [Ho Hos] [Hr Hrs] [Hn Hns]. unfold match_pr_url.
  apply segment_not_slash in Hos, Hrs.
  rewrite strip_prefix_app. cbn [mbind option_bind].
  rewrite (span_segment o (lit "/")) by done.
  rewrite bool_decide_eq_false_2 by done.
  rewrite (strip_prefix_app (lit "/")). cbn [mbind option_bind].
  rewrite (span_segment r (lit "/pull/")) by done.
  rewrite bool_decide_eq_false_2 by done.
  rewrite (strip_prefix_app (lit "/pull/")). cbn [mbind option_bind].
  rewrite (span_app isdecimal n) by done.
  destruct (span isdecimal rest) as [more rest'] eqn:Hspan. cbn [fst snd].
  rewrite bool_decide_eq_false_2; [done|].
  destruct n; [done|discriminate].
Qed.

(** C10. The pattern is matched at the start of the text only: a text
    that begins with https://github.com/<owner>/<repo>/pull/<digits> parses
    whatever follows the digits, and the number extracted is the leading
    run of digits after /pull/. *)
Theorem parse_pr_url_matches_prefix (o r n rest : str) :
  segment o -> segment r -> digits n ->
  let url := lit "https://github.com/" ++ o ++ lit "/" ++ r
             ++ lit "/pull/" ++ n ++ rest in
  exists info,
    _parse_pr_url (VStr url) = Ok (Some info)
    /\ owner info = o /\ repo info = r
    /\ pr_number info = (span isdecimal (n ++ rest)).1
    /\ exists more, pr_number info = n ++ more.
Proof.
  intros Ho Hr Hn url. eexists. split.
  - simpl. unfold url. by rewrite match_pr_url_prefix.
  - simpl. repeat split; [|by eexists].
    destruct Hn as [_ Hn]. by rewrite span_app.
Qed.

End UrlPattern.

(* ===================================================================== *)
(** ** Further properties: request normalisation *)
(* ===================================================================== *)

Section NormalisationMore.
Import Agent Main.

Lemma dict_ext (d1 : dict) : forall d2 : dict,
  dict_keys d1 = dict_keys d2 -> NoDup (dict_keys d1) ->
  (forall k, k ∈ dict_keys d1 -> dict_get k d1 = dict_get k d2) ->
  d1 = d2.
Proof.
  induction d1 as [|[k1 v1] d1 IH]; intros [|[k2 v2] d2] Hk Hnd Hget;
    simpl in Hk; try done.
  injection Hk as <- Hk. apply NoDup_cons in Hnd as [Hfresh Hnd].
  assert (v1 = v2) as <-.
  { specialize (Hget k1 (list_elem_of_here _ _)). simpl in Hget.
    assert (str_eqb k1 k1 = true) as Hrefl by by apply str_eqb_true.
    rewrite Hrefl in Hget. by injection Hget. }
  f_equal. apply IH; [done|done|].
  intros k Hin. specialize (Hget k (list_elem_of_further _ _ _ Hin)).
  simpl in Hget.
  assert (str_eqb k1 k = false) as Hne.
  { apply str_eqb_false. intros ->. contradiction. }
  by rewrite Hne in Hget.
Qed.

Lemma dict_set_bools k b (d : dict) :
  Forall (fun kv => is_bool kv.2 = true) d ->
  Forall (fun kv => is_bool kv.2 = true) (dict_set k (VBool b) d).
Proof.
  induction 1 as [|[k' v'] d Hv Hd IH]; simpl.
  - by repeat constructor.
  - destruct (str_eqb k' k); constructor; done.
Qed.

Lemma criteria_fold_bools items : forall acc,
  Forall (fun kv => is_bool kv.2 = true) acc ->
  Forall (fun kv : list N * value => is_bool kv.2 = true)
         (fold_left criteria_step items acc).
Proof.
  induction items as [|kv items IH]; intros acc Hacc; simpl; [done|].
  apply IH. unfold criteria_step. destruct (dict_has kv.1 acc); [|done].
  by apply dict_set_bools.
Qed.

Lemma dict_get_bool k (d : dict) v :
  Forall (fun kv => is_bool kv.2 = true) d -> dict_get k d = Some v ->
  VBool (truthy v) = v.
Proof.
  induction 1 as [|[k' v'] d Hv Hd IH]; simpl; [done|].
  destruct (str_eqb k' k); [|done]. intros [= <-].
  by destruct v'.
Qed.

(** What the normalisation returns, in every case. *)
Lemma validate_review_criteria_cases x :
  (truthy x = false /\ validate_review_criteria x = Ok (VDict default_criteria))
  \/ (exists items, x = VDict items /\ truthy x = true
        /\ validate_review_criteria x
           = Ok (VDict (fold_left criteria_step items default_criteria)))
  \/ (truthy x = true /\ (forall items, x <> VDict items)
        /\ validate_review_criteria x = Raise AttributeError).
Proof.
  unfold validate_review_criteria. destruct (truthy x) eqn:Ht; simpl.
  - destruct x; try (right; right; by repeat split).
    right; left. by eexists.
  - by left.
Qed.

(** X1. Normalising is idempotent: whatever value was normalised, the
    result is a mapping of the five known keys to booleans, and
    normalising it again returns it unchanged. *)
Theorem validate_review_criteria_idempotent (x out : value) :
  validate_review_criteria x = Ok out ->
  validate_review_criteria out = Ok out
  /\ exists d, out = VDict d /\ dict_keys d = known_criteria
       /\ Forall (fun kv => is_bool kv.2 = true) d.
Proof.
  intros Hx.
  assert (Hd : exists d, out = VDict d /\ dict_keys d = known_criteria
                 /\ Forall (fun kv => is_bool kv.2 = true) d).
  { destruct (validate_review_criteria_cases x)
      as [[_ Hr]|[(items & -> & _ & Hr)|(_ & _ & Hr)]];
      rewrite Hr in Hx; [|injection Hx as <-|done].
    - injection Hx as <-. eexists. split; [done|]. split; [done|].
      repeat constructor.
    - eexists. split; [done|]. split; [apply criteria_fold_keys|].
      apply criteria_fold_bools. repeat constructor. }
  split; [|done]. destruct Hd as (d & -> & Hkeys & Hbools).
  unfold validate_review_criteria.
  assert (truthy (VDict d) = true) as ->.
  { destruct d; [discriminate Hkeys|done]. }
  simpl. do 2 f_equal.
  assert (Hwf : NoDup (dict_keys d)).
  { rewrite Hkeys. apply (bool_decide_unpack _). vm_compute. exact I. }
  apply dict_ext.
  - by rewrite criteria_fold_keys, Hkeys.
  - rewrite criteria_fold_keys. change (dict_keys default_criteria) with known_criteria.
    by rewrite <- Hkeys.
  - intros k Hk. rewrite criteria_fold_keys in Hk.
    rewrite criteria_fold_get; [|done|done].
    assert (k ∈ dict_keys d) as Hin by by rewrite Hkeys.
    apply dict_has_true in Hin. unfold dict_has in Hin.
    destruct (dict_get k d) as [v|] eqn:Hv; [|done].
    f_equal. by eapply dict_get_bool.
Qed.

Lemma validate_review_criteria_idempotent_witness :
  exists out,
    validate_review_criteria (VDict [(lit "style", VStr []); (lit "x", VInt 1)])
      = Ok out
    /\ validate_review_criteria out = Ok out.
Proof.
  eexists. split; [reflexivity|].
  apply (validate_review_criteria_idempotent
           (VDict [(lit "style", VStr []); (lit "x", VInt 1)])).
  reflexivity.
Defined.

(** X2. The normalisation raises only [AttributeError], and exactly on a
    value that is truthy and not a mapping (a non-empty list or string, a
    non-zero number, [True]); every falsy value (an absent or null field,
    an empty mapping, list or string, zero, [False]) gives the five
    defaults, all [True]. *)
Theorem validate_review_criteria_raises_on_non_mapping (x : value) :
  (forall e, validate_review_criteria x = Raise e <->
     e = AttributeError /\ truthy x = true /\ forall items, x <> VDict items)
  /\ (truthy x = false ->
        validate_review_criteria x
        = Ok (VDict (map (fun k => (k, VBool true)) known_criteria))).
Proof.
  split.
  - intros e.
    destruct (validate_review_criteria_cases x)
      as [[Hf Hr]|[(items & -> & Ht & Hr)|(Ht & Hn & Hr)]]; rewrite Hr.
    + split; [done|]. intros (_ & Ht & _). congruence.
    + split; [done|]. intros (_ & _ & Hn). by destruct (Hn items).
    + split; [by intros [= <-]|by intros (-> & _)].
  - intros Hf. unfold validate_review_criteria. by rewrite Hf.
Qed.

(** X3. The validated threshold is always one of the four levels, and
    validating is idempotent. *)
Theorem validate_severity_threshold_in_levels (threshold : value) :
  validate_severity_threshold threshold ∈ severity_levels
  /\ validate_severity_threshold (validate_severity_threshold threshold)
     = validate_severity_threshold threshold.
Proof.
  assert (Hin : validate_severity_threshold threshold ∈ severity_levels).
  { unfold validate_severity_threshold.
    destruct (in_str_list threshold valid_thresholds) eqn:E; simpl.
    - by apply in_str_list_spec.
    - apply list_elem_of_here. }
  split; [done|]. apply in_str_list_spec in Hin.
  unfold validate_severity_threshold at 1. by rewrite Hin.
Qed.

Lemma dict_has_false k (d : dict) : dict_has k d = false <-> dict_get k d = None.
Proof. unfold dict_has. destruct (dict_get k d); split; done. Qed.

Lemma falsy_dict_get k (d : dict) : truthy (VDict d) = false -> dict_get k d = None.
Proof. destruct d; [done|discriminate]. Qed.

Lemma request_session_state_shape data :
  match request_session_state data with
  | None => True
  | Some (Raise e) => True
  | Some (Ok st) =>
    exists rc,
      validate_review_criteria
        (default (VDict []) (dict_get (lit "review_criteria") data)) = Ok rc
      /\ st = <["pull_request_url" :=
                  default VNone (dict_get (lit "pull_request_url") data)]>
              (<["review_criteria" := rc]>
              (<["severity_threshold" :=
                   validate_severity_threshold
                     (default (VStr (lit "low"))
                        (dict_get (lit "severity_threshold") data))]>
              (<["post_comments" :=
                   default (VBool false) (dict_get (lit "post_comments") data)]> ∅)))
  end.
Proof.
  unfold request_session_state. destruct (_ || _); [done|].
  destruct (validate_review_criteria _) as [rc|e]; [|done].
  by exists rc.
Qed.

(** X4. The endpoint refuses a JSON object exactly when it is empty or
    has no "pull_request_url"; it fails exactly when "review_criteria" is
    truthy and not a mapping; otherwise the session state has exactly the
    four request keys, with the URL and the posting flag taken over as
    they are (no type is checked). *)
Theorem request_session_state_cases (data : dict) :
  (request_session_state data = None <->
     dict_get (lit "pull_request_url") data = None)
  /\ (forall e, request_session_state data = Some (Raise e) <->
        is_Some (dict_get (lit "pull_request_url") data)
        /\ validate_review_criteria
             (default (VDict []) (dict_get (lit "review_criteria") data))
           = Raise e)
  /\ (forall st, request_session_state data = Some (Ok st) ->
        dom st = list_to_set request_keys
        /\ st !! "pull_request_url" = dict_get (lit "pull_request_url") data
        /\ st !! "post_comments"
           = Some (default (VBool false) (dict_get (lit "post_comments") data))).
Proof.
  split; [|split].
  - unfold request_session_state.
    destruct (truthy (VDict data)) eqn:Ht; simpl.
    + destruct (dict_has _ data) eqn:Hh; simpl.
      * split; [done|]. intros Hn. apply dict_has_false in Hn. congruence.
      * split; [intros _; by apply dict_has_false|done].
    + split; [intros _; by apply falsy_dict_get|done].
  - intros e. unfold request_session_state.
    destruct (truthy (VDict data)) eqn:Ht; simpl.
    + destruct (dict_has _ data) eqn:Hh; simpl.
      * assert (is_Some (dict_get (lit "pull_request_url") data)) as Hs.
        { unfold dict_has in Hh. by destruct (dict_get _ data). }
        destruct (validate_review_criteria _) as [rc|e'].
        -- split; [done|]. by intros [_ ?].
        -- split; [intros [= ->]; done|by intros [_ [= ->]]].
      * apply dict_has_false in Hh. split; [done|]. rewrite Hh. by intros [[? ?] _].
    + apply (falsy_dict_get (lit "pull_request_url")) in Ht.
      split; [done|]. rewrite Ht. by intros [[? ?] _].
  - intros st Hst. pose proof (request_session_state_shape data) as Hshape.
    rewrite Hst in Hshape. destruct Hshape as (rc & _ & ->).
    split; [|split].
    + rewrite !dom_insert_L, dom_empty_L. unfold request_keys. simpl.
      set_solver.
    + rewrite lookup_insert_eq.
      assert (is_Some (dict_get (lit "pull_request_url") data)) as [v Hv].
      { destruct (dict_get (lit "pull_request_url") data) eqn:E; [done|].
        exfalso. revert Hst. unfold request_session_state.
        apply dict_has_false in E. rewrite E, orb_true_r. done. }
      by rewrite Hv.
    + by repeat (rewrite lookup_insert_ne by done); rewrite lookup_insert_eq.
Qed.

End NormalisationMore.

(* ===================================================================== *)
(** ** Further properties: the command sandbox *)
(* ===================================================================== *)

Section SandboxMore.
Import BashTool.
Context `{UnicodeData}.

Lemma run_cli_tool self os c args :
  run_proc os (cli_tool self c args) =
    match os c args (working_dir self) with
    | Ok process => cli_tool_finish self c args process
    | Raise e => Raise e
    end.
Proof. simpl. by destruct (os c args (working_dir self)). Qed.

Lemma utf8_decode_length_le n : forall bs s,
  (length bs <= n)%nat -> utf8_decode bs = Some s -> (length s <= length bs)%nat.
Proof.
  induction n as [|n IH]; intros bs s Hn Hs.
  - destruct bs; [|simpl in Hn; lia]. simpl in Hs. injection Hs as <-. done.
  - destruct bs as [|b0 r0]; [simpl in Hs; by injection Hs as <-|].
    simpl in Hn. simpl in Hs.
    destruct (b0 <? 128).
    { apply fmap_Some in Hs as (s' & Hs' & ->).
      apply IH in Hs'; simpl; lia. }
    destruct (in_range 194 223 b0).
    { destruct r0 as [|b1 r1]; [done|]. destruct (is_cont b1); [|done].
      apply fmap_Some in Hs as (s' & Hs' & ->). simpl in Hn.
      apply IH in Hs'; simpl; lia. }
    destruct (in_range 224 239 b0).
    { destruct r0 as [|b1 [|b2 r2]]; try done.
      destruct (_ && _); [|done].
      apply fmap_Some in Hs as (s' & Hs' & ->). simpl in Hn.
      apply IH in Hs'; simpl; lia. }
    destruct (in_range 240 244 b0); [|done].
    destruct r0 as [|b1 [|b2 [|b3 r3]]]; try done.
    destruct (_ && _); [|done].
    apply fmap_Some in Hs as (s' & Hs' & ->). simpl in Hn.
    apply IH in Hs'; simpl; lia.
Qed.

Lemma decode_utf8_length b s :
  decode_utf8 b = Some s -> (length s <= length b)%nat.
Proof.
  unfold decode_utf8. intros Hs.
  apply (utf8_decode_length_le (length (map Byte.to_N b))) in Hs; [|done].
  by rewrite length_map in Hs.
Qed.

Lemma utf8_decode_ascii bs :
  Forall (fun x => x < 128) bs -> utf8_decode bs = Some bs.
Proof.
  induction 1 as [|b bs Hb _ IH]; [done|]. simpl.
  apply N.ltb_lt in Hb. by rewrite Hb, IH.
Qed.

Lemma decode_utf8_ascii b :
  is_ascii b -> decode_utf8 b = Some (map Byte.to_N b).
Proof.
  intros Hb. apply utf8_decode_ascii. by apply Forall_fmap.
Qed.

Lemma truncated_length self output n :
  truncate_length self = Some n -> (0 < n)%Z ->
  (len (truncated self output) <= n + len truncate_str)%Z
  /\ take (Z.to_nat n) output `prefix_of` truncated self output.
Proof.
  intros Hn Hpos. unfold truncated. rewrite Hn.
  assert ((n =? 0)%Z = false) as -> by (apply Z.eqb_neq; lia). simpl.
  destruct (len output >? n)%Z eqn:E.
  - rewrite slice_to_nonneg by lia. split; [|by apply prefix_app_r].
    unfold len. rewrite length_app, length_take. lia.
  - assert (len output <= n)%Z as Hle.
    { rewrite Z.gtb_ltb in E. by apply Z.ltb_ge. }
    split; [unfold len in *; lia|].
    rewrite take_ge; [done|]. unfold len in Hle. lia.
Qed.

(** X5. With a limit N > 0, whatever a successful command prints, the
    string returned has at most N + 11 characters (the limit and the
    marker "<truncated>") and starts with the first N characters of the
    output (with the whole output when it is shorter). *)
Theorem truncated_output_is_bounded
    (self : BashTools) (os : OS) (c : str) (args : list str)
    (process : Completed) (output : str) (n : Z) :
  os c args (working_dir self) = Ok process ->
  returncode process = 0%Z ->
  decode_utf8 (stdout process) = Some output ->
  truncate_length self = Some n -> (0 < n)%Z ->
  exists returned,
    run_proc os (cli_tool self c args) = Ok returned
    /\ (len returned <= n + 11)%Z
    /\ take (Z.to_nat n) output `prefix_of` returned.
Proof.
  intros Hos Hrc Hout Hn Hpos. rewrite run_cli_tool, Hos.
  unfold cli_tool_finish. rewrite Hrc, Hout. simpl. eexists. split; [done|].
  by apply truncated_length.
Qed.

(** X6. A negative limit always truncates: the last |N| characters of the
    output are dropped (all of them when there are fewer) and the marker
    is appended, even to an empty output. *)
Theorem negative_limit_drops_the_end
    (self : BashTools) (os : OS) (c : str) (args : list str)
    (process : Completed) (output : str) (n : Z) :
  os c args (working_dir self) = Ok process ->
  returncode process = 0%Z ->
  decode_utf8 (stdout process) = Some output ->
  truncate_length self = Some n -> (n < 0)%Z ->
  run_proc os (cli_tool self c args)
  = Ok (take (length output - Z.to_nat (- n)) output ++ truncate_str).
Proof.
  intros Hos Hrc Hout Hn Hneg. rewrite run_cli_tool, Hos.
  unfold cli_tool_finish, truncated. rewrite Hrc, Hout, Hn. simpl.
  assert ((n =? 0)%Z = false) as -> by (apply Z.eqb_neq; lia).
  assert ((len output >? n)%Z = true) as ->.
  { apply Z.gtb_gt. unfold len. lia. }
  simpl. unfold slice_to.
  assert ((0 <=? n)%Z = false) as -> by (apply Z.leb_gt; lia).
  do 3 f_equal. unfold len. lia.
Qed.

(** X7. An invocation raises in two cases only: the child could not be
    started (the error of the operating system comes through), or the
    stream the invocation decodes is not valid UTF-8, that is stderr after
    a non-zero exit and stdout after exit 0.  The other stream is never
    decoded. *)
Theorem cli_tool_raises_only (self : BashTools) (os : OS) (c : str)
    (args : list str) (e : exn) :
  run_proc os (cli_tool self c args) = Raise e <->
    os c args (working_dir self) = Raise e
    \/ exists process,
         os c args (working_dir self) = Ok process
         /\ e = UnicodeDecodeError
         /\ decode_utf8 (if (returncode process =? 0)%Z
                         then stdout process else stderr process) = None.
Proof.
  rewrite run_cli_tool.
  destruct (os c args (working_dir self)) as [process|e'].
  - unfold cli_tool_finish.
    destruct (returncode process =? 0)%Z eqn:Hz; simpl.
    + destruct (decode_utf8 (stdout process)) eqn:E.
      * split; [done|]. intros [?|(p & [= <-] & _ & Hd)]; [done|].
        rewrite Hz in Hd. congruence.
      * split; [|intros [?|(p & _ & -> & _)]; done].
        intros [= <-]. right. exists process. by rewrite Hz.
    + destruct (decode_utf8 (stderr process)) eqn:E.
      * split; [done|]. intros [?|(p & [= <-] & _ & Hd)]; [done|].
        rewrite Hz in Hd. congruence.
      * split; [|intros [?|(p & _ & -> & _)]; done].
        intros [= <-]. right. exists process. by rewrite Hz.
  - split; [intros [= ->]; by left|].
    intros [[= ->]|(p & ? & _)]; done.
Qed.

(** X8. The tools of a sandbox have pairwise different names exactly when
    the allowed commands are pairwise different. *)
Theorem tool_names_distinct (self : BashTools) :
  NoDup (map tool_name (get_tools self)) <-> NoDup (allowed_commands self).
Proof.
  unfold get_tools. rewrite map_map. simpl.
  assert (Inj eq eq (fun c : list N => c ++ lit "_cli")) as Hinj.
  { intros a b Hab. by apply app_inv_tail in Hab. }
  split; [apply NoDup_fmap_1|by apply NoDup_fmap_2].
Qed.

(** X9. The limit counts characters, and an output never has more
    characters than bytes: when stdout has at most N bytes, the output is
    returned whole. *)
Theorem short_output_is_returned_whole
    (self : BashTools) (os : OS) (c : str) (args : list str)
    (process : Completed) (output : str) (n : Z) :
  os c args (working_dir self) = Ok process ->
  returncode process = 0%Z ->
  decode_utf8 (stdout process) = Some output ->
  truncate_length self = Some n ->
  (len (stdout process) <= n)%Z ->
  run_proc os (cli_tool self c args) = Ok output
  /\ (len output <= len (stdout process))%Z.
Proof.
  intros Hos Hrc Hout Hn Hshort. rewrite run_cli_tool, Hos.
  apply decode_utf8_length in Hout as Hlen.
  unfold cli_tool_finish, truncated. rewrite Hrc, Hout, Hn. simpl.
  assert ((len output >? n)%Z = false) as ->.
  { rewrite Z.gtb_ltb. apply Z.ltb_ge. unfold len in *. lia. }
  rewrite andb_false_r. split; [done|]. unfold len. lia.
Qed.

(** X10. When the child was started and what it left on stdout and stderr
    is ASCII, the invocation returns a string; after exit 0 and with no
    limit, the string is stdout, byte for character. *)
Theorem ascii_streams_never_raise
    (self : BashTools) (os : OS) (c : str) (args : list str)
    (process : Completed) :
  os c args (working_dir self) = Ok process ->
  is_ascii (stdout process) -> is_ascii (stderr process) ->
  (exists returned, run_proc os (cli_tool self c args) = Ok returned)
  /\ (returncode process = 0%Z -> truncate_length self = None ->
        run_proc os (cli_tool self c args)
        = Ok (map Byte.to_N (stdout process))).
Proof.
  intros Hos Hout Herr. rewrite run_cli_tool, Hos. unfold cli_tool_finish.
  rewrite (decode_utf8_ascii _ Hout), (decode_utf8_ascii _ Herr).
  split.
  - destruct (returncode process =? 0)%Z; simpl; by eexists.
  - intros -> Hnone. simpl. unfold truncated. by rewrite Hnone.
Qed.

End SandboxMore.

Section SandboxMoreExamples.
Import BashTool.
#[local] Existing Instance ascii_tables.

Lemma truncated_output_is_bounded_witness :
  exists returned,
    run_proc (child 0 [x61; x62; x63; x64; x65; x66] [])
             (cli_tool (gh_sandbox (Some 4%Z)) (lit "gh") []) = Ok returned
    /\ (len returned <= 15)%Z
    /\ lit "abcd" `prefix_of` returned.
Proof.
  exact (truncated_output_is_bounded (gh_sandbox (Some 4%Z))
           (child 0 [x61; x62; x63; x64; x65; x66] []) (lit "gh") []
           {| returncode := 0; stdout := [x61; x62; x63; x64; x65; x66];
              stderr := [] |}
           (lit "abcdef") 4%Z eq_refl eq_refl eq_refl eq_refl eq_refl).
Defined.

Lemma negative_limit_drops_the_end_witness :
  run_proc (child 0 [x61; x62; x63] [])
           (cli_tool (gh_sandbox (Some (-1)%Z)) (lit "gh") [])
    = Ok (lit "ab<truncated>")
  /\ run_proc (child 0 [] [])
              (cli_tool (gh_sandbox (Some (-1)%Z)) (lit "gh") [])
     = Ok (lit "<truncated>").
Proof.
  split.
  - exact (negative_limit_drops_the_end (gh_sandbox (Some (-1)%Z))
             (child 0 [x61; x62; x63] []) (lit "gh") []
             {| returncode := 0; stdout := [x61; x62; x63]; stderr := [] |}
             (lit "abc") (-1)%Z eq_refl eq_refl eq_refl eq_refl eq_refl).
  - exact (negative_limit_drops_the_end (gh_sandbox (Some (-1)%Z))
             (child 0 [] []) (lit "gh") []
             {| returncode := 0; stdout := []; stderr := [] |}
             [] (-1)%Z eq_refl eq_refl eq_refl eq_refl eq_refl).
Defined.

Lemma short_output_is_returned_whole_witness :
  run_proc (child 0 [xc3; xa9] []) (cli_tool (gh_sandbox (Some 2%Z)) (lit "gh") [])
    = Ok [233]
  /\ (len [233] <= 2)%Z.
Proof.
  refine (short_output_is_returned_whole (gh_sandbox (Some 2%Z))
            (child 0 [xc3; xa9] []) (lit "gh") []
            {| returncode := 0; stdout := [xc3; xa9]; stderr := [] |}
            [233] 2%Z eq_refl eq_refl eq_refl eq_refl _).
  unfold len. simpl. lia.
Defined.

Lemma ascii_streams_never_raise_witness :
  (exists returned,
     run_proc (child 1 [x6f] [x65]) (cli_tool (gh_sandbox None) (lit "gh") [])
       = Ok returned)
  /\ run_proc (child 0 [x6f; x6b] []) (cli_tool (gh_sandbox None) (lit "gh") [])
     = Ok (lit "ok").
Proof.
  split.
  - refine (proj1 (ascii_streams_never_raise (gh_sandbox None)
             (child 1 [x6f] [x65]) (lit "gh") []
             {| returncode := 1; stdout := [x6f]; stderr := [x65] |}
             eq_refl _ _)); repeat constructor.
  - refine (proj2 (ascii_streams_never_raise (gh_sandbox None)
             (child 0 [x6f; x6b] []) (lit "gh") []
             {| returncode := 0; stdout := [x6f; x6b]; stderr := [] |}
             eq_refl _ _) eq_refl eq_refl); repeat constructor.
Defined.

End SandboxMoreExamples.

(* ===================================================================== *)
(** ** Further properties: environment and repository helpers *)
(* ===================================================================== *)

Section CommonMore.
Import Common.

Lemma note_absent_fold environ keys : forall errors,
  fold_left (note_absent environ) keys errors
  = errors ++ map (fun k => lit "❌ " ++ k ++ lit " is not set")
                  (filter (fun k => environ !! k = None) keys).
Proof.
  induction keys as [|k keys IH]; intros errors; simpl.
  - by rewrite app_nil_r.
  - rewrite IH. unfold note_absent. rewrite filter_cons.
    destruct (environ !! k) eqn:E.
    + by rewrite decide_False.
    + rewrite decide_True by done. simpl. by rewrite <- app_assoc.
Qed.

(** X11. The check returns exactly when every required name is in the
    environment, be it with an empty value; otherwise it raises
    [ValueError] with the header line followed by one line per absent
    name, in the order asked (a name asked twice is listed twice). *)
Theorem raise_if_env_absent_spec (environ : gmap (list N) (list N))
    (required_api_keys : list str) :
  (raise_if_env_absent environ required_api_keys = Returned tt <->
     forall k, k ∈ required_api_keys -> is_Some (environ !! k))
  /\ (forall msg, raise_if_env_absent environ required_api_keys = ValueError msg ->
        msg = lit "The following checks failed:" ++ [10]
              ++ join [10]
                   (map (fun k => lit "❌ " ++ k ++ lit " is not set")
                        (filter (fun k => environ !! k = None) required_api_keys))).
Proof.
  unfold raise_if_env_absent. rewrite note_absent_fold. simpl.
  set (missing := filter (fun k => environ !! k = None) required_api_keys).
  assert (Hmissing : missing = [] <->
            forall k, k ∈ required_api_keys -> is_Some (environ !! k)).
  { unfold missing. split.
    - intros Hnil k Hk. destruct (environ !! k) eqn:E; [done|].
      assert (k ∈ filter (fun k => environ !! k = None) required_api_keys) as Hin
        by by apply list_elem_of_filter.
      rewrite Hnil in Hin. by apply elem_of_nil in Hin.
    - intros Hall.
      destruct (filter (fun k => environ !! k = None) required_api_keys)
        as [|k0 rest] eqn:E; [done|].
      assert (k0 ∈ filter (fun k => environ !! k = None) required_api_keys) as Hin
        by (rewrite E; left).
      apply list_elem_of_filter in Hin as [Hnone Hin].
      apply Hall in Hin as [? ?]. congruence. }
  destruct missing as [|k0 rest] eqn:E; simpl.
  - split; [|done]. split; [intros _; by apply Hmissing|done].
  - split; [|by intros msg [= <-]].
    split; [done|]. intros Hall. by apply Hmissing in Hall.
Qed.

Lemma env_set_insert environ k v name :
  lit name <> k -> env_set (<[k := v]> environ) name = env_set environ name.
Proof. intros Hne. unfold env_set. by rewrite lookup_insert_ne. Qed.

(** X12. Redeclaring only ever writes GH_TOKEN.  When GITHUB_API_KEY is
    set and not empty, one of GH_TOKEN and GITHUB_TOKEN is set and not
    empty afterwards; a token that is already set and not empty is never
    replaced; without an API key nothing changes; and redeclaring twice
    is redeclaring once. *)
Theorem redeclare_scm_envs_spec (environ : gmap (list N) (list N)) :
  let after := redeclare_scm_envs environ in
  (forall k, k <> lit "GH_TOKEN" -> after !! k = environ !! k)
  /\ (env_set environ "GITHUB_API_KEY" = true ->
        env_set after "GH_TOKEN" || env_set after "GITHUB_TOKEN" = true)
  /\ (env_set environ "GH_TOKEN" || env_set environ "GITHUB_TOKEN" = true ->
        after = environ)
  /\ (env_set environ "GITHUB_API_KEY" = false -> after = environ)
  /\ redeclare_scm_envs after = after.
Proof.
  intros after. unfold after, redeclare_scm_envs.
  destruct (env_set environ "GITHUB_API_KEY") eqn:Hkey; simpl.
  - destruct (env_set environ "GH_TOKEN" || env_set environ "GITHUB_TOKEN")
      eqn:Htok; simpl.
    + rewrite Hkey, Htok. simpl. by repeat split.
    + assert (Hnew : env_set (<[lit "GH_TOKEN" :=
                  default [] (environ !! lit "GITHUB_API_KEY")]> environ)
                "GH_TOKEN" = true).
      { unfold env_set in *. rewrite lookup_insert_eq.
        by destruct (environ !! lit "GITHUB_API_KEY") as [[|]|]. }
      rewrite Hnew. simpl. rewrite andb_false_r.
      split; [intros k Hk; by rewrite lookup_insert_ne|].
      by repeat split.
  - rewrite Hkey. simpl. by repeat split.
Qed.

Lemma split_on_not_nil sep s : split_on sep s <> [].
Proof.
  destruct s as [|c s]; simpl; [done|].
  destruct (c =? sep); [done|]. by destruct (split_on sep s).
Qed.

Lemma last_cons_cons {A} (x y : A) l d : List.last (x :: y :: l) d = List.last (y :: l) d.
Proof. reflexivity. Qed.

Lemma last_split_on_no_sep sep s :
  sep ∉ List.last (split_on sep s) [].
Proof.
  induction s as [|c s IH]; simpl; [apply not_elem_of_nil|].
  pose proof (split_on_not_nil sep s) as Hne.
  destruct (c =? sep) eqn:E.
  - destruct (split_on sep s) as [|x xs]; [done|]. by rewrite last_cons_cons.
  - apply N.eqb_neq in E.
    destruct (split_on sep s) as [|x [|y xs]]; [done| |].
    + simpl in *. rewrite not_elem_of_cons. split; [congruence|done].
    + by rewrite last_cons_cons in *.
Qed.

Lemma split_on_whole sep s : sep ∉ s -> split_on sep s = [s].
Proof.
  induction s as [|c s IH]; [done|]. intros Hs.
  apply not_elem_of_cons in Hs as [Hc Hs]. simpl.
  assert ((c =? sep) = false) as -> by (apply N.eqb_neq; congruence).
  by rewrite IH.
Qed.

Lemma split_on_two sep b t :
  exists x y ys, split_on sep (b ++ sep :: t) = x :: y :: ys.
Proof.
  pose proof (split_on_not_nil sep t) as Ht.
  induction b as [|c b (x & y & ys & IH)]; simpl.
  - rewrite N.eqb_refl. destruct (split_on sep t) as [|y ys]; [done|]. by eexists _, _, _.
  - rewrite IH. destruct (c =? sep); by eexists _, _, _.
Qed.

Lemma last_split_on_after sep b t :
  List.last (split_on sep (b ++ sep :: t)) [] = List.last (split_on sep t) [].
Proof.
  pose proof (split_on_not_nil sep t) as Ht.
  induction b as [|c b IH]; simpl.
  - rewrite N.eqb_refl. destruct (split_on sep t); [done|]. by rewrite last_cons_cons.
  - destruct (split_on_two sep b t) as (x & y & ys & E). rewrite E in *.
    destruct (c =? sep); by rewrite last_cons_cons.
Qed.

Lemma remove_dot_git_cons_other a s :
  a <> 46 -> remove_dot_git (a :: s) = a :: remove_dot_git s.
Proof.
  intros Ha. simpl.
  assert ((a =? 46) = false) as -> by by apply N.eqb_neq.
  by destruct s as [|b [|c [|d rest]]].
Qed.

Lemma remove_dot_git_suffix repo :
  46 ∉ repo -> remove_dot_git (repo ++ lit ".git") = repo.
Proof.
  induction repo as [|a repo IH]; [done|]. intros Hr.
  apply not_elem_of_cons in Hr as [Ha Hr].
  rewrite <- app_comm_cons, remove_dot_git_cons_other by congruence.
  by rewrite IH.
Qed.

Lemma remove_dot_git_sub n : forall s x,
  (length s <= n)%nat -> x ∈ remove_dot_git s -> x ∈ s.
Proof.
  induction n as [|n IH]; intros s x Hn Hx.
  - destruct s; [done|simpl in Hn; lia].
  - destruct s as [|a s']; [done|]. simpl in Hn.
    assert (Hstep : x ∈ a :: remove_dot_git s' -> x ∈ a :: s').
    { intros Hin. apply elem_of_cons in Hin as [->|Hin]; [left|].
      right. apply IH; [lia|done]. }
    simpl in Hx. destruct s' as [|b [|c [|d rest]]]; try by apply Hstep.
    destruct (_ && _); [|by apply Hstep].
    do 4 right. apply IH; [simpl in Hn; lia|done].
Qed.

Lemma repo_name_no_slash git_url : 47 ∉ repo_name_of git_url.
Proof.
  unfold repo_name_of. intros Hin.
  eapply remove_dot_git_sub in Hin; [|done].
  by apply last_split_on_no_sep in Hin.
Qed.

(** X13. The directory that [clone_repository] removes when it exists,
    clones into and returns is in every case [cwd / "cloned_<name>"] for a
    name without "/", so it is a direct child of the working directory;
    the command ends with the URL and that directory, which is what is
    returned when the command succeeds; and for a URL that ends in
    "/<repo>.git", with no "/" and no "." in <repo>, the name is <repo>. *)
Theorem clone_repository_directory
    (under_cwd : str -> str) (path_exists : str -> bool)
    (run_git : list str -> result (option str)) (git_url : str)
    (branch : option str) :
  let done := clone_repository under_cwd path_exists run_git git_url branch in
  exists name,
    (47 ∉ name)
    /\ removed done
       = (if path_exists (under_cwd (lit "cloned_" ++ name))
          then Some (under_cwd (lit "cloned_" ++ name)) else None)
    /\ (exists options,
          command done = [lit "git"; lit "clone"] ++ options
                         ++ [git_url; under_cwd (lit "cloned_" ++ name)])
    /\ (run_git (command done) = Ok None ->
          ended done = Ok (Returned (under_cwd (lit "cloned_" ++ name))))
    /\ (forall base repo,
          git_url = base ++ lit "/" ++ repo ++ lit ".git" ->
          47 ∉ repo -> 46 ∉ repo -> name = repo).
Proof.
  intros done. exists (repo_name_of git_url).
  split; [apply repo_name_no_slash|]. split; [done|].
  split; [|split].
  - unfold done, clone_repository. simpl.
    destruct branch as [[|c b]|]; simpl.
    + by exists [].
    + by exists [lit "--branch"; c :: b].
    + by exists [].
  - unfold done, clone_repository. simpl. by intros ->.
  - intros base repo -> Hslash Hdot. unfold repo_name_of.
    change (lit "/" ++ repo ++ lit ".git") with (47 :: (repo ++ lit ".git")).
    rewrite last_split_on_after, split_on_whole.
    + simpl. by apply remove_dot_git_suffix.
    + rewrite elem_of_app. intros [?|Hin]; [done|].
      vm_compute in Hin. repeat (apply elem_of_cons in Hin as [Hin|Hin]; [done|]).
      by apply elem_of_nil in Hin.
Qed.

End CommonMore.

(* ===================================================================== *)
(** ** Reasoning about generator steps *)
(* ===================================================================== *)

Section GenFacts.
Import Agent.

Lemma bind_run {A B} (m : Gen A) (f : A -> Gen B) r :
  (m ≫= f) r =
  match m r with
  | (Continue a, r') => f a r'
  | (Stop, r') => (Stop, r')
  | (Fail e, r') => (Fail e, r')
  end.
Proof. reflexivity. Qed.

Lemma preserved_bind {A B} I (m : Gen A) (f : A -> Gen B) :
  Preserved I m -> (forall a, Preserved I (f a)) -> Preserved I (m ≫= f).
Proof.
  intros Hm Hf r Hr. rewrite bind_run. specialize (Hm r Hr).
  destruct (m r) as [[a| |e] r']; simpl in *; [by apply Hf|done|done].
Qed.

Lemma preserved_ret {A} I (a : A) : Preserved I (mret a).
Proof. by intros r. Qed.

Lemma preserved_stop {A} I : Preserved I (@stop A).
Proof. by intros r. Qed.

Lemma preserved_lift {A} I (x : result A) : Preserved I (lift x).
Proof. intros r Hr. by destruct x. Qed.

Lemma preserved_get_state I : Preserved I get_state.
Proof. by intros r. Qed.

Lemma preserved_get_state_dep {A} (I : Run -> Prop)
    (f : gmap string value -> Gen A) :
  (forall r, I r -> I (f (state r) r).2) -> Preserved I (get_state ≫= f).
Proof. intros Hf r Hr. rewrite bind_run. simpl. by apply Hf. Qed.

Lemma preserved_if {A} I (b : bool) (m1 m2 : Gen A) :
  Preserved I m1 -> Preserved I m2 -> Preserved I (if b then m1 else m2).
Proof. by destruct b. Qed.

(** Running a worker delivers its events, whether or not it raises. *)
Lemma run_async_run k out r :
  run_async k out r =
    (match raises out with Some e => Fail e | None => Continue tt end,
     fold_left (deliver k) (events out) r).
Proof. reflexivity. Qed.

Lemma preserved_run_async (I : Run -> Prop) k out :
  (forall l r, I r -> I (fold_left (deliver k) l r)) ->
  Preserved I (run_async k out).
Proof. intros Hl r Hr. rewrite run_async_run. by apply Hl. Qed.

(** What delivering a worker's events does to the run. *)
Lemma deliver_fold_other k out : forall r k',
  k' <> k -> state (fold_left (deliver k) out r) !! k' = state r !! k'.
Proof.
  induction out as [|[ev w] out IH]; intros r k' Hne; simpl; [done|].
  rewrite IH by done. unfold deliver; simpl.
  destruct w; [by apply lookup_insert_ne|done].
Qed.

Lemma deliver_fold_branches k out : forall r,
  branches (fold_left (deliver k) out r) = branches r
  /\ branch (fold_left (deliver k) out r) = branch r.
Proof.
  induction out as [|e out IH]; intros r; simpl; [done|].
  destruct (IH (deliver k r e)) as [-> ->]. done.
Qed.

(** The events of the worker are yielded, in their order. *)
Lemma deliver_fold_emitted k out : forall r,
  exists new, emitted (fold_left (deliver k) out r) = emitted r ++ new
    /\ map fst new = map fst out.
Proof.
  induction out as [|e out IH]; intros r; simpl.
  - exists []. by rewrite app_nil_r.
  - destruct (IH (deliver k r e)) as (new & -> & Hnew). simpl.
    eexists. rewrite <- app_assoc. split; [done|]. simpl. by rewrite Hnew.
Qed.

(** A worker that stores nothing leaves the session state as it was. *)
Lemma deliver_fold_silent k out : forall r,
  Forall (fun e => e.2 = None) out ->
  state (fold_left (deliver k) out r) = state r.
Proof.
  induction out as [|[ev w] out IH]; intros r Hout; simpl; [done|].
  apply Forall_cons in Hout as [Hw Hout]. simpl in Hw. subst w.
  by rewrite IH.
Qed.

(** Nothing a worker delivers deletes a key. *)
Lemma deliver_fold_stored k out : forall r k',
  is_Some (state r !! k') -> is_Some (state (fold_left (deliver k) out r) !! k').
Proof.
  induction out as [|[ev w] out IH]; intros r k' Hs; simpl; [done|].
  apply IH. unfold deliver; simpl. destruct w as [v|]; [|done].
  destruct (decide (k = k')) as [->|Hne].
  - rewrite lookup_insert_eq. by eexists.
  - by rewrite lookup_insert_ne.
Qed.

End GenFacts.

(* ===================================================================== *)
(** ** Invariants of the stages *)
(* ===================================================================== *)

Section StageFacts.
Import Agent.
Context `{UnicodeData}.
Variable W : Workers.
Variable name : str.

Ltac preserve :=
  repeat first
    [ apply preserved_bind; [|intros ?]
    | apply preserved_if
    | apply preserved_ret
    | apply preserved_stop
    | apply preserved_lift
    | apply preserved_get_state
    | match goal with |- Preserved _ (match ?x with _ => _ end) => destruct x end ].

Ltac in_list :=
  repeat first [apply list_elem_of_here|apply list_elem_of_further].

Lemma check_inputs_preserved names keys I :
  StableUnder names keys I -> Preserved I (check_inputs name).
Proof. intros (Hy & _ & _). unfold check_inputs. preserve; apply Hy. Qed.

Lemma step1_preserved I info :
  StableUnder early_branches early_keys I -> Preserved I (step1_fetch W name info).
Proof.
  intros (Hy & Hb & Hr). unfold step1_fetch, _fetch_pr_details.
  preserve; first [apply Hy|apply Hb|apply Hr]; in_list.
Qed.

Lemma step2_preserved I rc sv :
  StableUnder early_branches early_keys I -> Preserved I (step2_analyze W name rc sv).
Proof.
  intros (Hy & Hb & Hr). unfold step2_analyze, _analyze_code_changes.
  preserve; first [apply Hy|apply Hb|apply Hr]; in_list.
Qed.

Lemma step3_preserved I :
  StableUnder early_branches early_keys I -> Preserved I (step3_generate W name).
Proof.
  intros (Hy & Hb & Hr).
  unfold step3_generate, _generate_review_comments, structure_output.
  preserve; first [apply Hy|apply Hb|apply Hr]; in_list.
Qed.

Lemma step4_keeps I info :
  (forall ev, Preserved I (yield ev)) ->
  Preserved I (set_branch (lit "post_review_comments")) ->
  (forall out, Preserved I (run_async "post_result" out)) ->
  Preserved I (step4_post W name info).
Proof.
  intros Hy Hb Hr. unfold step4_post, _post_review_comments.
  preserve; first [apply Hy|apply Hb|apply Hr].
Qed.

Lemma last_steps_keeps I info :
  (forall ev, Preserved I (yield ev)) ->
  Preserved I (set_branch (lit "post_review_comments")) ->
  (forall out, Preserved I (run_async "post_result" out)) ->
  (forall v, Preserved I (set_state "final_result" v)) ->
  Preserved I (last_steps W name info).
Proof.
  intros Hy Hb Hr Hs. unfold last_steps.
  apply preserved_bind; [by apply step4_keeps|intros _].
  unfold _generate_final_result, report_result.
  preserve; first [apply Hy|apply Hs].
Qed.

Lemma deliver_no_final k e r :
  k <> "final_result" -> no_final r -> no_final (deliver k r e).
Proof.
  intros Hk [Hst Hev].
  assert (Hst' : state (deliver k r e) !! "final_result" = None).
  { unfold deliver; simpl. destruct e.2; [by rewrite lookup_insert_ne|done]. }
  split; [done|]. simpl. apply Forall_app. split; [done|].
  by apply Forall_singleton.
Qed.

Lemma no_final_stable names keys :
  "final_result" ∉ keys -> StableUnder names keys no_final.
Proof.
  intros Hk. split; [|split].
  - intros ev r [Hst Hev]. split; [done|]. simpl.
    apply Forall_app. split; [done|]. by apply Forall_singleton.
  - by intros n _ r [Hst Hev].
  - intros k out Hin. apply preserved_run_async.
    assert (k <> "final_result") as Hne by (intros ->; contradiction).
    induction l as [|e l IH]; intros r Hr; simpl; [done|].
    by apply IH, deliver_no_final.
Qed.

Lemma extends_stable names keys r0 : StableUnder names keys (extends r0).
Proof.
  split; [|split].
  - intros ev r [Hb He]. split; [done|]. simpl. by apply prefix_app_r.
  - intros n _ r [Hb He]. split; [|done]. simpl. by apply prefix_app_r.
  - intros k out _. apply preserved_run_async. intros l r [Hb He].
    destruct (deliver_fold_branches k l r) as [Hbr _].
    destruct (deliver_fold_emitted k l r) as (new & Hem & _).
    split; [by rewrite Hbr|]. rewrite Hem. by apply prefix_app_r.
Qed.

Lemma extends_final r0 v : Preserved (extends r0) (set_state "final_result" v).
Proof. by intros r [Hb He]. Qed.


Lemma stored_stable k names keys : StableUnder names keys (stored k).
Proof.
  split; [|split].
  - by intros ev r Hr.
  - by intros n _ r Hr.
  - intros k' out _. apply preserved_run_async. intros l r Hr.
    by apply deliver_fold_stored.
Qed.

End StageFacts.

(* ===================================================================== *)
(** ** The last steps: posting, finalizing, reporting *)
(* ===================================================================== *)

Section LastSteps.
Import Agent.
Context `{UnicodeData}.
Variable W : Workers.
Variable name : str.

Lemma conforms_truthy v : conforms_ReviewResult v = true -> truthy v = true.
Proof. destruct v as [| | | | | |[|kv d]]; done. Qed.

Lemma generate_final_result_run r :
  _generate_final_result name r =
    (Continue tt,
     {| state := <["final_result" := final_of (state r)]> (state r);
        branch := branch r; branches := branches r;
        emitted := emitted r ++
          [(mk_event name "system" "Final result generated",
            <["final_result" := final_of (state r)]> (state r))] |}).
Proof.
  unfold _generate_final_result, final_of. rewrite bind_run. simpl.
  by destruct (truthy (default (VDict []) (state r !! "review_comments"))).
Qed.

Lemma report_result_run r :
  (report_result name r).1 <> Stop
  /\ state (report_result name r).2 = state r
  /\ branches (report_result name r).2 = branches r
  /\ emitted r `prefix_of` emitted (report_result name r).2.
Proof.
  unfold report_result. rewrite bind_run. simpl.
  destruct (state r !! "final_result") as [res|]; [|done].
  rewrite bind_run. destruct res; simpl; try done.
  repeat split; [done|by apply prefix_app_r].
Qed.

(** The posting step: nothing when the flag is falsy; otherwise the
    announcement, the switch of branch and the posting worker, given the
    stored review and the three commands. *)
Lemma step4_post_run info r :
  step4_post W name info r =
    if truthy (default (VBool false) (state r !! "post_comments"))
    then run_async "post_result"
           (post_review_comments W info
              (default (VDict []) (state r !! "review_comments"))
              gh_tools (state r))
           {| state := state r; branch := Some (lit "post_review_comments");
              branches := branches r ++ [lit "post_review_comments"];
              emitted := emitted r ++
                [(mk_event name "assistant"
                    "📝 Posting review comments to pull request...",
                  state r)] |}
    else (Continue tt, r).
Proof.
  unfold step4_post. rewrite bind_run. simpl.
  by destruct (truthy (default (VBool false) (state r !! "post_comments"))).
Qed.

(** What the posting step leaves behind, whatever the worker did. *)
Lemma step4_post_after info r :
  let flag := truthy (default (VBool false) (state r !! "post_comments")) in
  (step4_post W name info r).1 <> Stop
  /\ branches (step4_post W name info r).2
     = branches r ++ (if flag then [lit "post_review_comments"] else [])
  /\ (forall k, k <> "post_result" ->
        state (step4_post W name info r).2 !! k = state r !! k)
  /\ emitted r `prefix_of` emitted (step4_post W name info r).2.
Proof.
  rewrite step4_post_run.
  destruct (truthy (default (VBool false) (state r !! "post_comments"))).
  - rewrite run_async_run.
    match goal with |- context [fold_left (deliver ?k) ?out ?r0] =>
      destruct (deliver_fold_branches k out r0) as [Hb _];
      destruct (deliver_fold_emitted k out r0) as (new & He & _);
      pose proof (deliver_fold_other k out r0) as Hs
    end.
    simpl. rewrite Hb, He. simpl. split; [by destruct (raises _)|].
    split; [done|]. split; [intros k Hk; by rewrite Hs|].
    rewrite <- app_assoc. by apply prefix_app_r.
  - simpl. by rewrite app_nil_r.
Qed.

End LastSteps.

(* ===================================================================== *)
(** ** Whole runs *)
(* ===================================================================== *)

Section WholeRun.
Import BashTool Agent Main.
Context `{UnicodeData}.
Variable W : Workers.
Variable name : str.

Ltac keep :=
  repeat first
    [ apply preserved_bind; [|intros ?]
    | apply preserved_if
    | apply preserved_ret
    | apply preserved_stop
    | apply preserved_lift
    | apply preserved_get_state
    | match goal with |- Preserved _ (match ?x with _ => _ end) => destruct x end ].

Ltac in_list :=
  repeat first [apply list_elem_of_here|apply list_elem_of_further].

(** The last steps never halt the run; they store the final result
    unless the posting worker raised. *)
Lemma last_steps_run info r :
  let flag := truthy (default (VBool false) (state r !! "post_comments")) in
  (last_steps W name info r).1 <> Stop
  /\ branches (last_steps W name info r).2
     = branches r ++ (if flag then [lit "post_review_comments"] else [])
  /\ emitted r `prefix_of` emitted (last_steps W name info r).2
  /\ ((step4_post W name info r).1 = Continue tt ->
        state (last_steps W name info r).2 !! "final_result"
        = Some (final_of (state r)))
  /\ (forall a, (last_steps W name info r).1 = Continue a ->
        (step4_post W name info r).1 = Continue tt).
Proof.
  unfold last_steps. rewrite bind_run.
  destruct (step4_post_after W name info r) as (Ho & Hb & Hs & He).
  destruct (step4_post W name info r) as [[[]| |e] r4]; simpl in Ho, Hb, Hs, He;
    [|done|by repeat split].
  rewrite bind_run, generate_final_result_run.
  match goal with |- context [report_result name ?r5] =>
    destruct (report_result_run name r5) as (Ho' & Hs' & Hb' & He') end.
  simpl in *. split; [done|]. rewrite Hs', Hb'. simpl.
  split; [done|]. split; [|split; [|done]].
  - etrans; [exact He|]. etrans; [|exact He']. by apply prefix_app_r.
  - intros _. rewrite lookup_insert_eq. unfold final_of.
    by rewrite (Hs "review_comments").
Qed.

(** A run either ends before the posting step, having kept every
    invariant of the early stages, or goes through the last steps. *)
Lemma run_halts_or_posts (I : Run -> Prop) r0 :
  StableUnder early_branches early_keys I -> I r0 ->
  (I (_run_async_impl W name r0).2
   /\ forall a, (_run_async_impl W name r0).1 <> Continue a)
  \/ exists info r3, I r3 /\ _run_async_impl W name r0 = last_steps W name info r3.
Proof.
  intros HI H0. unfold _run_async_impl. rewrite bind_run. simpl.
  rewrite bind_run.
  pose proof (check_inputs_preserved name _ _ I HI r0 H0) as H1.
  destruct (check_inputs name r0) as [[info| |e] r1]; simpl in H1;
    [|by left|by left].
  rewrite bind_run.
  pose proof (step1_preserved W name I info HI r1 H1) as H2.
  destruct (step1_fetch W name info r1) as [[[]| |e] r2]; simpl in H2;
    [|by left|by left].
  rewrite bind_run.
  match goal with |- context [step2_analyze W name ?rc ?sv r2] =>
    pose proof (step2_preserved W name I rc sv HI r2 H2) as H3;
    destruct (step2_analyze W name rc sv r2) as [[[]| |e] r3] end;
    simpl in H3; [|by left|by left].
  rewrite bind_run.
  pose proof (step3_preserved W name I HI r3 H3) as H4.
  destruct (step3_generate W name r3) as [[[]| |e] r4]; simpl in H4;
    [|by left|by left].
  right. by exists info, r4.
Qed.

(** The validation of the inputs, in every case. *)
Lemma check_inputs_cases r :
  let v := default VNone (state r !! "pull_request_url") in
  check_inputs name r =
    if negb (truthy v)
    then (Stop, with_event name r "system"
            "No pull_request_url found in session state. Please provide a 'pull_request_url' in the session state.")
    else match v with
         | VStr url =>
           match match_pr_url url with
           | Some info => (Continue info, r)
           | None =>
             (Stop, with_event name r "system"
                "Invalid pull request URL format. Expected format: https://github.com/owner/repo/pull/123")
           end
         | _ => (Fail TypeError, r)
         end.
Proof.
  intros v. unfold check_inputs. rewrite bind_run. simpl. fold v.
  destruct (truthy v) eqn:Ht; simpl.
  - rewrite bind_run. simpl. rewrite bind_run.
    destruct v; simpl; try done. by destruct (match_pr_url _).
  - rewrite bind_run. by rewrite bind_run.
Qed.

Lemma check_inputs_str r url :
  state r !! "pull_request_url" = Some (VStr url) ->
  check_inputs name r =
    match match_pr_url url with
    | Some info => (Continue info, r)
    | None =>
      (Stop,
       with_event name r "system"
         (if bool_decide (url = [])
          then "No pull_request_url found in session state. Please provide a 'pull_request_url' in the session state."
          else "Invalid pull request URL format. Expected format: https://github.com/owner/repo/pull/123"))
    end.
Proof.
  intros Hurl. unfold check_inputs. rewrite bind_run. simpl. rewrite Hurl. simpl.
  destruct url as [|c url]; [done|].
  rewrite bool_decide_eq_false_2 by done. simpl.
  rewrite bind_run. simpl. rewrite bind_run. simpl.
  by destruct (match_pr_url (c :: url)).
Qed.

Lemma run_unfold r :
  _run_async_impl W name r =
    (pr_info ← check_inputs name;
     step1_fetch W name pr_info;;
     step2_analyze W name
       (default (VDict []) (state r !! "review_criteria"))
       (default (VStr (lit "low")) (state r !! "severity_threshold"));;
     step3_generate W name;;
     last_steps W name pr_info) r.
Proof. reflexivity. Qed.

(** The fetching step: the announcement, the worker, then the gate. *)
Lemma step1_fetch_run info r :
  let out := fetch_pr_details W info gh_tools (state r) in
  let r1 :=
    fold_left (deliver "pr_details") (events out)
      {| state := state r; branch := Some (lit "fetch_pr_details");
         branches := branches r ++ [lit "fetch_pr_details"];
         emitted := emitted r ++
           [(mk_event name "assistant" "🔍 Fetching pull request details...",
             state r)] |} in
  step1_fetch W name info r =
    match raises out with
    | Some e => (Fail e, r1)
    | None =>
      if bool_decide (is_Some (state r1 !! "pr_details"))
      then (Continue tt, r1)
      else (Stop, with_event name r1 "system" "Failed to fetch pull request details.")
    end.
Proof.
  intros out r1. unfold step1_fetch, _fetch_pr_details.
  rewrite bind_run. simpl. rewrite !bind_run. simpl. fold out. fold r1.
  destruct (raises out); [done|].
  rewrite bind_run. unfold get_state.
  by destruct (bool_decide (is_Some (state r1 !! "pr_details"))).
Qed.

(** After the announcement and the switch of branch the run only grows. *)
Lemma run_after_check info r :
  check_inputs name r = (Continue info, r) ->
  extends
    {| state := state r; branch := Some (lit "fetch_pr_details");
       branches := branches r ++ [lit "fetch_pr_details"];
       emitted := emitted r ++
         [(mk_event name "assistant" "🔍 Fetching pull request details...",
           state r)] |}
    (_run_async_impl W name r).2.
Proof.
  intros Hc. rewrite run_unfold, bind_run, Hc.
  set (ra := {| state := state r; branch := Some (lit "fetch_pr_details");
                branches := _; emitted := _ |}).
  assert (Hall : forall names keys, StableUnder names keys (extends ra))
    by (intros; apply extends_stable).
  assert (H1 : extends ra (step1_fetch W name info r).2).
  { rewrite step1_fetch_run. fold ra.
    destruct (Hall [] ["pr_details"]) as (Hy & _ & Hr).
    assert (extends ra (fold_left (deliver "pr_details")
              (events (fetch_pr_details W info gh_tools (state r))) ra)) as Hd.
    { apply (Hr "pr_details" (fetch_pr_details W info gh_tools (state r)));
        [apply list_elem_of_here|done]. }
    destruct (raises _); [done|]. case_bool_decide; [done|]. by apply Hy. }
  rewrite bind_run.
  destruct (step1_fetch W name info r) as [[[]| |e] r2]; simpl in H1; [|done|done].
  rewrite bind_run.
  match goal with |- context [step2_analyze W name ?rc ?sv r2] =>
    pose proof (step2_preserved W name _ rc sv (Hall _ _) r2 H1) as H2;
    destruct (step2_analyze W name rc sv r2) as [[[]| |e] r3] end;
    simpl in H2; [|done|done].
  rewrite bind_run.
  pose proof (step3_preserved W name _ (Hall _ _) r3 H2) as H3.
  destruct (step3_generate W name r3) as [[[]| |e] r4]; simpl in H3; [|done|done].
  destruct (last_steps_run info r4) as (_ & Hb & He & _). destruct H3 as [H3b H3e].
  split.
  - rewrite Hb. etrans; [exact H3b|]. by apply prefix_app_r.
  - etrans; [exact H3e|exact He].
Qed.

(** The run on a missing or falsy URL, and on a truthy one that is not a
    string. *)
Lemma run_without_url st :
  truthy (default VNone (st !! "pull_request_url")) = false ->
  _run_async_impl W name (start st) =
    (Stop,
     {| state := st; branch := None; branches := [];
        emitted := [(mk_event name "system"
          "No pull_request_url found in session state. Please provide a 'pull_request_url' in the session state.",
          st)] |}).
Proof.
  intros Hv. rewrite run_unfold, bind_run, check_inputs_cases.
  cbn [state start]. by rewrite Hv.
Qed.

Lemma run_non_string_url r v :
  state r !! "pull_request_url" = Some v -> truthy v = true -> is_str v = false ->
  _run_async_impl W name r = (Fail TypeError, r).
Proof.
  intros Hv Ht Hs. rewrite run_unfold, bind_run, check_inputs_cases.
  rewrite Hv. change (default VNone (Some v)) with v. rewrite Ht.
  by destruct v.
Qed.

(** *** Invariants that depend on the workers *)

Lemma stable_under_for I :
  StableUnder early_branches early_keys I -> StableFor W I.
Proof.
  intros (Hy & Hb & Hr). split; [done|]. split; [|split; [|split; [|split]]].
  - intros n Hn. apply Hb. revert Hn. unfold early_branches.
    rewrite !elem_of_cons. tauto.
  - intros. apply Hr. unfold early_keys. in_list.
  - intros. apply Hr. unfold early_keys. in_list.
  - intros. apply Hr. unfold early_keys. in_list.
  - intros r Hr' _. revert r Hr'.
    change (Preserved I (structure_output W)). unfold structure_output.
    keep; first [apply Hb; unfold early_branches|apply Hr; unfold early_keys];
      in_list.
Qed.

Lemma stable_for_and I J :
  StableFor W I -> StableFor W J -> StableFor W (fun r => I r /\ J r).
Proof.
  intros (a1 & a2 & a3 & a4 & a5 & a6) (b1 & b2 & b3 & b4 & b5 & b6).
  split; [|split; [|split; [|split; [|split]]]].
  - intros ev r [? ?]. split; [by apply a1|by apply b1].
  - intros n Hn r [? ?]. split; [by apply a2|by apply b2].
  - intros i t s r [? ?]. split; [by apply a3|by apply b3].
  - intros p c v s r [? ?]. split; [by apply a4|by apply b4].
  - intros c s r [? ?]. split; [by apply a5|by apply b5].
  - intros r [? ?] Hs. split; [by apply a6|by apply b6].
Qed.

Lemma stable_for_stored I k :
  StableFor W I -> StableFor W (fun r => I r /\ stored k r).
Proof.
  intros HI. apply stable_for_and; [done|].
  apply stable_under_for, stored_stable.
Qed.

Lemma step1_keeps I info :
  StableFor W I -> Preserved I (step1_fetch W name info).
Proof.
  intros (Hy & Hb & Hf & _). unfold step1_fetch, _fetch_pr_details.
  keep; first [apply Hy|apply Hf|apply Hb; in_list].
Qed.

Lemma step2_keeps I rc sv :
  StableFor W I -> Preserved I (step2_analyze W name rc sv).
Proof.
  intros (Hy & Hb & _ & Ha & _). unfold step2_analyze, _analyze_code_changes.
  keep; first [apply Hy|apply Ha|apply Hb; in_list].
Qed.

Lemma step3_keeps I :
  StableFor W I -> Preserved I (step3_generate W name).
Proof.
  intros (Hy & Hb & _ & _ & Hg & Hs).
  unfold step3_generate, _generate_review_comments.
  apply preserved_bind; [apply Hy|intros _].
  apply preserved_bind.
  - apply preserved_bind; [apply preserved_get_state|intros st].
    apply preserved_bind; [apply Hb; in_list|intros _].
    apply preserved_bind; [apply preserved_get_state|intros st'].
    apply preserved_bind; [apply Hg|intros _].
    apply preserved_get_state_dep. intros r Hr.
    case_bool_decide; [by apply Hs|done].
  - intros _. keep; apply Hy.
Qed.

(** A gate lets the run go on only when its key is stored. *)
Lemma gate_continue {A B} (pre : Gen A) (m : Gen B) k ev r :
  let g := pre ;; m ;; st ← get_state;
           (if negb (bool_decide (is_Some (st !! k)))
            then yield ev ;; stop else mret tt) in
  (g r).1 = Continue tt -> stored k (g r).2.
Proof.
  intros g. unfold g. rewrite bind_run.
  destruct (pre r) as [[a| |e] r1]; [|done|done].
  rewrite bind_run. destruct (m r1) as [[b| |e] r2]; [|done|done].
  rewrite bind_run. simpl.
  destruct (bool_decide (is_Some (state r2 !! k))) eqn:Hs; simpl; [|done].
  intros _. apply bool_decide_eq_true in Hs. exact Hs.
Qed.

Lemma step1_continue info r :
  (step1_fetch W name info r).1 = Continue tt ->
  stored "pr_details" (step1_fetch W name info r).2.
Proof. apply (gate_continue (yield _) (_fetch_pr_details W info)). Qed.

Lemma step2_continue rc sv r :
  (step2_analyze W name rc sv r).1 = Continue tt ->
  stored "code_analysis" (step2_analyze W name rc sv r).2.
Proof. apply (gate_continue (yield _) (_analyze_code_changes W rc sv)). Qed.

Lemma step3_continue r :
  (step3_generate W name r).1 = Continue tt ->
  stored "review_comments" (step3_generate W name r).2.
Proof. apply (gate_continue (yield _) (_generate_review_comments W)). Qed.

(** A run ends before the posting step, having kept the invariant, or
    passes the three gates and goes through the last steps. *)
Lemma run_cases (I : Run -> Prop) r0 :
  StableFor W I -> I r0 ->
  let run := _run_async_impl W name r0 in
  ((forall a, run.1 <> Continue a) /\ I run.2)
  \/ (exists info r3,
        I r3 /\ stored "pr_details" r3 /\ stored "code_analysis" r3
        /\ stored "review_comments" r3
        /\ run = last_steps W name info r3).
Proof.
  intros HI H0 run. unfold run. rewrite run_unfold, bind_run.
  pose proof HI as (Hy & _).
  assert (H1 : I (check_inputs name r0).2).
  { rewrite check_inputs_cases.
    destruct (negb _); [by apply Hy|].
    destruct (default VNone _); try done.
    destruct (match_pr_url _); [done|by apply Hy]. }
  destruct (check_inputs name r0) as [[info| |e] r1]; simpl in H1;
    [|by left|by left].
  rewrite bind_run.
  pose proof (step1_keeps I info HI r1 H1) as H2.
  pose proof (step1_continue info r1) as G1.
  destruct (step1_fetch W name info r1) as [[[]| |e] r2]; simpl in H2, G1;
    [|by left|by left].
  specialize (G1 eq_refl). rewrite bind_run.
  match goal with |- context [step2_analyze W name ?rc ?sv r2] =>
    pose proof (step2_keeps _ rc sv (stable_for_stored I "pr_details" HI) r2
                  (conj H2 G1)) as H3;
    pose proof (step2_continue rc sv r2) as G2;
    destruct (step2_analyze W name rc sv r2) as [[[]| |e] r3] end;
    simpl in H3, G2;
    [|left; by destruct H3|left; by destruct H3].
  specialize (G2 eq_refl). rewrite bind_run.
  pose proof (step3_keeps _
    (stable_for_stored _ "code_analysis" (stable_for_stored I "pr_details" HI))
    r3 (conj H3 G2)) as H4.
  pose proof (step3_continue r3) as G3.
  destruct (step3_generate W name r3) as [[[]| |e] r4]; simpl in H4, G3;
    [|left; by destruct H4 as [[? ?] ?]|left; by destruct H4 as [[? ?] ?]].
  specialize (G3 eq_refl). destruct H4 as [[? ?] ?].
  right. by exists info, r4.
Qed.

(** The frame of a run. *)
Lemma framed_parts st :
  (forall ev, Preserved (framed st) (yield ev))
  /\ (forall n, Preserved (framed st) (set_branch n))
  /\ (forall k out, k ∈ written_keys -> Preserved (framed st) (run_async k out))
  /\ (forall k v, k ∈ written_keys -> Preserved (framed st) (set_state k v)).
Proof.
  split; [|split; [|split]].
  - by intros ev r Hr.
  - by intros n r Hr.
  - intros k out Hk. apply preserved_run_async. intros l r [Hout Hin]. split.
    + intros k' Hk'. rewrite deliver_fold_other; [by apply Hout|].
      by intros ->.
    + intros k' Hk'. by apply deliver_fold_stored, Hin.
  - intros k v Hk r [Hout Hin]. split; simpl.
    + intros k' Hk'. rewrite lookup_insert_ne; [by apply Hout|]. by intros ->.
    + intros k' Hk'. destruct (decide (k = k')) as [->|Hne].
      * rewrite lookup_insert_eq. by eexists.
      * rewrite lookup_insert_ne by done. by apply Hin.
Qed.

End WholeRun.

(* ===================================================================== *)
(** ** Validation, gates and the final result *)
(* ===================================================================== *)

Section PipelineClaims.
Import BashTool Agent Main.
Context `{UnicodeData}.
Variable W : Workers.

Lemma match_pr_url_sound url info :
  match_pr_url url = Some info -> github_pr_prefix url info.
Proof.
  unfold match_pr_url. intros Hm.
  destruct (strip_prefix (lit "https://github.com/") url) as [r0|] eqn:E0;
    cbn [mbind option_bind] in Hm; [|done].
  destruct (span_spec not_slash r0) as (S1 & F1 & _).
  destruct (span not_slash r0) as [g1 r1]. cbn [fst snd] in *.
  case_bool_decide; [done|].
  destruct (strip_prefix (lit "/") r1) as [r2|] eqn:E2;
    cbn [mbind option_bind] in Hm; [|done].
  destruct (span_spec not_slash r2) as (S2 & F2 & _).
  destruct (span not_slash r2) as [g2 r3]. cbn [fst snd] in *.
  case_bool_decide; [done|].
  destruct (strip_prefix (lit "/pull/") r3) as [r4|] eqn:E4;
    cbn [mbind option_bind] in Hm; [|done].
  destruct (span_spec isdecimal r4) as (S3 & F3 & L3).
  destruct (span isdecimal r4) as [g3 r5]. cbn [fst snd] in *.
  case_bool_decide; [done|]. injection Hm as <-.
  apply strip_prefix_Some in E0, E2, E4.
  unfold github_pr_prefix, segment, digits. cbn [owner repo pr_number].
  rewrite <- !segment_not_slash in *.
  repeat split; try done.
  exists r5. split; [|done]. congruence.
Qed.

Lemma match_pr_url_complete url info :
  github_pr_prefix url info -> match_pr_url url = Some info.
Proof.
  intros (Ho & Hr & Hn & rest & -> & Hrest).
  rewrite match_pr_url_prefix by done.
  rewrite (span_no_leading isdecimal rest) by done. cbn [fst].
  rewrite app_nil_r. by destruct info.
Qed.

(** C2, as the code has it.  A text under "pull_request_url" parses
    exactly when it begins with
    https://github.com/<owner>/<repo>/pull/<digits> (the host is
    github.com, and what follows the digits is ignored).  When it does not,
    parsing returns nothing, one diagnostic event is emitted and the run
    ends there: no worker is run and the context store is untouched.  When
    it does, parsing gives the owner, repository and number and the run
    goes on to fetching: it announces the step and runs the fetching
    worker first. *)
Theorem pr_url_validation (name : str) (st : gmap string value) (url : str) :
  st !! "pull_request_url" = Some (VStr url) ->
  let run := _run_async_impl W name (start st) in
  (forall info, match_pr_url url = Some info <-> github_pr_prefix url info)
  /\ ((forall info, ~ github_pr_prefix url info) ->
        _parse_pr_url (VStr url) = Ok None
        /\ exists diagnostic,
             run = (Stop,
                    {| state := st; branch := None; branches := [];
                       emitted := [(mk_event name "system" diagnostic, st)] |}))
  /\ (forall info, github_pr_prefix url info ->
        _parse_pr_url (VStr url) = Ok (Some info)
        /\ exists later_branches later_events,
             branches run.2 = lit "fetch_pr_details" :: later_branches
             /\ emitted run.2 =
                  (mk_event name "assistant" "🔍 Fetching pull request details...",
                   st) :: later_events).
Proof.
  intros Hurl run.
  pose proof (check_inputs_str name (start st) url Hurl) as Hc.
  split; [|split].
  - intros info. split; [apply match_pr_url_sound|apply match_pr_url_complete].
  - intros Hno.
    assert (match_pr_url url = None) as Hnone.
    { destruct (match_pr_url url) as [info|] eqn:E; [|done].
      apply match_pr_url_sound in E. exfalso. exact (Hno info E). }
    split; [by simpl; rewrite Hnone|].
    rewrite Hnone in Hc. eexists. unfold run, _run_async_impl.
    rewrite bind_run. simpl. rewrite bind_run, Hc. reflexivity.
  - intros info Hinfo. apply match_pr_url_complete in Hinfo.
    split; [by simpl; rewrite Hinfo|].
    rewrite Hinfo in Hc.
    destruct (run_after_check W name info (start st) Hc) as [[bl Hb] [el He]].
    simpl in Hb, He. exists bl, el. by split.
Qed.

(** C6, as the code has it.  [_generate_final_result] always completes
    and stores a final result.  A truthy value found under
    "review_comments" is stored as it is, whether or not it was validated;
    so is, in particular, every validated ReviewResult.  When nothing or a
    falsy value is stored there, the final result is the fixed fallback,
    whose summary is "Code review completed", comment and issue lists are
    empty, recommendation is "comment", success is true and error is
    None.  No other key of the context store changes. *)
Theorem generate_final_result_verbatim_or_fallback (name : str) (r : Run) :
  let done := _generate_final_result name r in
  done.1 = Continue tt
  /\ (forall v, state r !! "review_comments" = Some v -> truthy v = true ->
        state done.2 !! "final_result" = Some v)
  /\ (forall v, state r !! "review_comments" = Some v ->
        conforms_ReviewResult v = true ->
        state done.2 !! "final_result" = Some v)
  /\ (state r !! "review_comments" = None ->
        state done.2 !! "final_result" = Some fallback_result)
  /\ (forall v, state r !! "review_comments" = Some v -> truthy v = false ->
        state done.2 !! "final_result" = Some fallback_result)
  /\ (forall k, k <> "final_result" -> state done.2 !! k = state r !! k)
  /\ conforms_ReviewResult fallback_result = true
  /\ fallback_result =
       VDict [ (lit "review_summary", VStr (lit "Code review completed"));
               (lit "comments_added", VList []);
               (lit "issues_found", VList []);
               (lit "approval_recommendation", VStr (lit "comment"));
               (lit "success", VBool true);
               (lit "error", VNone) ].
Proof.
  intros done. unfold done. rewrite generate_final_result_run. simpl.
  split; [done|]. split; [|split; [|split; [|split; [|split]]]].
  - intros v Hv Ht. rewrite lookup_insert_eq. unfold final_of. rewrite Hv. simpl.
    by rewrite Ht.
  - intros v Hv Hok. rewrite lookup_insert_eq. unfold final_of. rewrite Hv. simpl.
    by rewrite (conforms_truthy v Hok).
  - intros Hnone. rewrite lookup_insert_eq. unfold final_of. by rewrite Hnone.
  - intros v Hv Hfalsy. rewrite lookup_insert_eq. unfold final_of. rewrite Hv.
    simpl. by rewrite Hfalsy.
  - intros k Hk. by rewrite lookup_insert_ne.
  - split; [vm_compute|]; reflexivity.
Qed.

(** C1, as the code has it.  When the session starts without a final
    result and the pipeline is halted (by validation or by a gate), no
    final result is stored and no event carries one: the agent's fallback
    is not written.  A fetching worker that stores nothing and does not
    raise halts the run in this way, after that one worker.  For a missing
    final result the return statement of the runner substitutes its own
    payload: success false, error "No result generated", summary "Failed
    to complete review", no comments, no issues, recommendation
    "comment". *)
Theorem halted_run_stores_no_result (st : gmap string value) :
  st !! "final_result" = None ->
  let run := _run_async_impl W app_name (start st) in
  (run.1 = Stop ->
     state run.2 !! "final_result" = None
     /\ Forall (fun e => e.2 !! "final_result" = None) (emitted run.2))
  /\ (forall url info,
        st !! "pull_request_url" = Some (VStr url) ->
        match_pr_url url = Some info ->
        st !! "pr_details" = None ->
        Forall (fun e => e.2 = None) (events (fetch_pr_details W info gh_tools st)) ->
        raises (fetch_pr_details W info gh_tools st) = None ->
        run.1 = Stop /\ branches run.2 = [lit "fetch_pr_details"])
  /\ returned_payload VNone = no_result
  /\ no_result =
       VDict [ (lit "success", VBool false);
               (lit "error", VStr (lit "No result generated"));
               (lit "review_summary", VStr (lit "Failed to complete review"));
               (lit "comments_added", VList []);
               (lit "issues_found", VList []);
               (lit "approval_recommendation", VStr (lit "comment")) ].
Proof.
  intros Hfresh run. split; [|split; [|done]].
  - intros Hstop.
    destruct (run_halts_or_posts W app_name no_final (start st))
      as [[Hnf _]|(info & r3 & _ & Hlast)].
    + apply no_final_stable. unfold early_keys. intros Hin.
      repeat (apply elem_of_cons in Hin as [?|Hin]; [discriminate|]).
      by apply elem_of_nil in Hin.
    + split; [done|constructor].
    + exact Hnf.
    + exfalso. unfold run in Hstop. rewrite Hlast in Hstop.
      by destruct (last_steps_run W app_name info r3) as [Hns _].
  - intros url info Hurl Hinfo Hpr Hsilent Hquiet.
    pose proof (check_inputs_str app_name (start st) url Hurl) as Hc.
    rewrite Hinfo in Hc. unfold run.
    rewrite run_unfold, bind_run, Hc, bind_run, step1_fetch_run.
    cbn [state start]. rewrite Hquiet.
    match goal with |- context [fold_left (deliver ?k) ?out ?r0] =>
      pose proof (deliver_fold_silent k out r0 Hsilent) as Hs;
      destruct (deliver_fold_branches k out r0) as [Hb _];
      destruct (fold_left (deliver k) out r0) as [s b bs em] end.
    simpl in *. subst s bs. rewrite Hpr.
    rewrite bool_decide_eq_false_2 by (by intros [? ?]). done.
Qed.


End PipelineClaims.

(* ===================================================================== *)
(** ** Further properties: the order of the stages *)
(* ===================================================================== *)

Section StageOrder.
Import Agent.
Context `{UnicodeData}.
Variable W : Workers.
Variable name : str.

Lemma elem_of_cat_all xs ys x y : x ∈ xs -> y ∈ ys -> x ++ y ∈ cat_all xs ys.
Proof.
  intros Hx Hy. unfold cat_all. apply list_elem_of_In, in_flat_map.
  exists x. split; [by apply list_elem_of_In|].
  apply list_elem_of_In, list_elem_of_fmap. by exists y.
Qed.

Lemma traces_same {A} (m : Gen A) :
  (forall r, branches (m r).2 = branches r) ->
  (forall r, exists a, (m r).1 = Continue a) ->
  Traces m [[]] [] [].
Proof.
  intros Hb Hc r. exists []. rewrite app_nil_r. split; [done|].
  destruct (Hc r) as [a ->]. apply list_elem_of_here.
Qed.

Lemma traces_ret {A} (a : A) : Traces (mret a) [[]] [] [].
Proof. apply traces_same; [done|by eexists]. Qed.

Lemma traces_get_state : Traces get_state [[]] [] [].
Proof. apply traces_same; [done|by eexists]. Qed.

Lemma traces_yield ev : Traces (yield ev) [[]] [] [].
Proof. apply traces_same; [done|by eexists]. Qed.

Lemma traces_set_state k v : Traces (set_state k v) [[]] [] [].
Proof. apply traces_same; [done|by eexists]. Qed.

Lemma traces_run_async k out : Traces (run_async k out) [[]] [] [[]].
Proof.
  intros r. exists []. rewrite app_nil_r, run_async_run. simpl.
  split; [by destruct (deliver_fold_branches k (events out) r)|].
  destruct (raises out); apply list_elem_of_here.
Qed.

Lemma traces_set_branch n : Traces (set_branch n) [[n]] [] [].
Proof. intros r. exists [n]. split; [done|]. apply list_elem_of_here. Qed.

Lemma traces_stop {A} : Traces (@stop A) [] [[]] [].
Proof. intros r. exists []. rewrite app_nil_r. split; [done|]. apply list_elem_of_here. Qed.

Lemma traces_lift {A} (x : result A) : Traces (lift x) [[]] [] [[]].
Proof.
  intros r. exists []. rewrite app_nil_r.
  destruct x; (split; [done|]); apply list_elem_of_here.
Qed.

Lemma traces_bind {A B} (m : Gen A) (f : A -> Gen B) c1 s1 f1 c2 s2 f2 :
  Traces m c1 s1 f1 -> (forall a, Traces (f a) c2 s2 f2) ->
  Traces (m ≫= f) (cat_all c1 c2) (s1 ++ cat_all c1 s2) (f1 ++ cat_all c1 f2).
Proof.
  intros Hm Hf r. rewrite bind_run. destruct (Hm r) as (b1 & Hb1 & Ho1).
  destruct (m r) as [[a| |e] r1]; simpl in *.
  - destruct (Hf a r1) as (b2 & Hb2 & Ho2). exists (b1 ++ b2).
    rewrite Hb2, Hb1, <- app_assoc. split; [done|].
    destruct (f a r1).1.
    + by apply elem_of_cat_all.
    + apply elem_of_app. right. by apply elem_of_cat_all.
    + apply elem_of_app. right. by apply elem_of_cat_all.
  - exists b1. split; [done|]. apply elem_of_app. by left.
  - exists b1. split; [done|]. apply elem_of_app. by left.
Qed.

Lemma traces_weaken {A} (m : Gen A) c s f c' s' f' :
  Traces m c s f -> c ⊆ c' -> s ⊆ s' -> f ⊆ f' -> Traces m c' s' f'.
Proof.
  intros Hm Hc Hs Hf r. destruct (Hm r) as (b & Hb & Ho). exists b.
  split; [done|]. destruct (m r).1; auto.
Qed.

Lemma traces_if {A} (b : bool) (m1 m2 : Gen A) c1 s1 f1 c2 s2 f2 :
  Traces m1 c1 s1 f1 -> Traces m2 c2 s2 f2 ->
  Traces (if b then m1 else m2) (c1 ++ c2) (s1 ++ s2) (f1 ++ f2).
Proof.
  intros H1 H2. destruct b.
  - eapply traces_weaken; [exact H1|..]; intros x Hx; apply elem_of_app; by left.
  - eapply traces_weaken; [exact H2|..]; intros x Hx; apply elem_of_app; by right.
Qed.

Lemma traces_option {A B} (o : option B) (m1 : Gen A) (m2 : B -> Gen A)
    c1 s1 f1 c2 s2 f2 :
  Traces m1 c1 s1 f1 -> (forall x, Traces (m2 x) c2 s2 f2) ->
  Traces (match o with None => m1 | Some x => m2 x end)
         (c1 ++ c2) (s1 ++ s2) (f1 ++ f2).
Proof.
  intros H1 H2. destruct o as [x|].
  - eapply traces_weaken; [exact (H2 x)|..]; intros y Hy; apply elem_of_app; by right.
  - eapply traces_weaken; [exact H1|..]; intros y Hy; apply elem_of_app; by left.
Qed.

Ltac traces :=
  repeat lazymatch goal with
  | |- Traces (mret _) _ _ _ => apply traces_ret
  | |- Traces stop _ _ _ => apply traces_stop
  | |- Traces get_state _ _ _ => apply traces_get_state
  | |- Traces (yield _) _ _ _ => apply traces_yield
  | |- Traces (set_state _ _) _ _ _ => apply traces_set_state
  | |- Traces (run_async _ _) _ _ _ => apply traces_run_async
  | |- Traces (set_branch _) _ _ _ => apply traces_set_branch
  | |- Traces (lift _) _ _ _ => apply traces_lift
  | |- Traces (mbind _ _) _ _ _ => eapply traces_bind; [|intros ?]
  | |- Traces (if _ then _ else _) _ _ _ => eapply traces_if
  | |- Traces (match _ with Some _ => _ | None => _ end) _ _ _ =>
      eapply traces_option; [|intros ?]
  end.

Lemma run_traces :
  exists cs ss fs,
    Traces (_run_async_impl W name) cs ss fs
    /\ Forall (fun b => b ∈ completed_orders) cs
    /\ Forall (fun b => b ∈ halted_orders) ss
    /\ Forall (fun b => b ∈ raised_orders) fs.
Proof.
  eexists _, _, _. split.
  - unfold _run_async_impl, check_inputs, step1_fetch, step2_analyze,
      step3_generate, step4_post, _generate_final_result, report_result,
      _fetch_pr_details, _analyze_code_changes, _generate_review_comments,
      structure_output, _post_review_comments.
    traces.
  - repeat split; apply (bool_decide_unpack _); vm_compute; exact I.
Qed.

(** X14. The workers run in one fixed order and none runs twice.  When a
    run completes, fetching, analysing and generating have run in that
    order, then possibly the corrector, then possibly posting.  When a run
    is halted, what has run is a beginning of fetching, analysing,
    generating, correcting, and posting has not run.  When a run raises,
    be it from a worker, what has run is a beginning of one of these
    orders. *)
Theorem stages_run_in_order (st : gmap string value) :
  let run := _run_async_impl W name (start st) in
  match run.1 with
  | Continue _ => branches run.2 ∈ completed_orders
  | Stop => branches run.2 ∈ halted_orders
  | Fail _ => branches run.2 ∈ raised_orders
  end.
Proof.
  intros run. destruct run_traces as (cs & ss & fs & Htr & Hcs & Hss & Hfs).
  destruct (Htr (start st)) as (b & Hb & Ho). fold run in Hb, Ho.
  simpl in Hb. rewrite Hb. rewrite Forall_forall in Hcs, Hss, Hfs.
  destruct run.1; auto.
Qed.

End StageOrder.

(* ===================================================================== *)
(** ** Further properties: whole runs and the runner *)
(* ===================================================================== *)

Section RunProperties.
Import BashTool Agent Main.
Context `{UnicodeData}.
Variable W : Workers.

Ltac in_list :=
  repeat first [apply list_elem_of_here|apply list_elem_of_further].

(** The look-up of the session fails at the first event with content. *)
Lemma observe_all_content l : forall v e rest,
  l = e :: rest -> is_Some (content e.1) -> observe_all l v = Raise TypeError.
Proof.
  intros v e rest -> [c Hc]. simpl. unfold observe. by rewrite Hc.
Qed.

(** The first event of a run is the agent's own, yielded before any
    worker has written to the session state. *)
Lemma first_event_own name st :
  let run := _run_async_impl W name (start st) in
  run = (Fail TypeError, start st)
  \/ exists ev rest,
       emitted run.2 = (ev, st) :: rest
       /\ author ev = name /\ is_Some (content ev).
Proof.
  intros run. unfold run.
  pose proof (check_inputs_cases name (start st)) as Hc. cbv zeta in Hc.
  destruct (truthy (default VNone (state (start st) !! "pull_request_url")))
    eqn:Ht; cbn [negb] in Hc.
  - destruct (default VNone (state (start st) !! "pull_request_url"))
      as [| | | |url| |] eqn:Hv;
      try (left; by rewrite run_unfold, bind_run, Hc).
    destruct (match_pr_url url) as [info|].
    + right. destruct (run_after_check W name info (start st) Hc) as [_ [rest He]].
      simpl in He. eexists _, rest. split; [exact He|]. split; [done|].
      simpl. by eexists.
    + right. rewrite run_unfold, bind_run, Hc. simpl.
      eexists _, []. split; [done|]. split; [done|]. simpl. by eexists.
  - right. rewrite run_unfold, bind_run, Hc. simpl.
    eexists _, []. split; [done|]. split; [done|]. simpl. by eexists.
Qed.

Lemma runner_raises st : run_code_review_agent W st = Raise TypeError.
Proof.
  unfold run_code_review_agent.
  destruct (first_event_own app_name st) as [Hrun|(ev & rest & He & _ & Hc)].
  - by rewrite Hrun.
  - destruct (_run_async_impl W app_name (start st)) as [o r]. simpl in He.
    by rewrite (observe_all_content _ VNone (ev, st) rest He Hc).
Qed.

(** X15. A run leaves every key of the session state it was given in
    place: it deletes nothing, and outside the output keys of the workers
    and "final_result" every key keeps its value, so the request (URL,
    criteria, threshold, posting flag) is never rewritten. *)
Theorem run_writes_only_its_keys (name : str) (st : gmap string value) :
  let run := _run_async_impl W name (start st) in
  (forall k, k ∉ written_keys -> state run.2 !! k = st !! k)
  /\ (forall k, is_Some (st !! k) -> is_Some (state run.2 !! k))
  /\ Forall (fun k => k ∉ written_keys) request_keys.
Proof.
  intros run. destruct (framed_parts st) as (Hy & Hb & Hr & Hs).
  assert (HI : StableFor W (framed st)).
  { apply stable_under_for. split; [done|]. split; [done|].
    intros k out Hk. apply Hr. revert Hk. unfold early_keys, written_keys.
    rewrite !elem_of_cons. tauto. }
  assert (H0 : framed st (start st)) by by split.
  assert (framed st run.2) as [Hout Hin].
  { destruct (run_cases W name (framed st) (start st) HI H0)
      as [[_ Hend]|(info & r3 & H3 & _ & _ & _ & Hrun)].
    - done.
    - unfold run. rewrite Hrun.
      apply last_steps_keeps; [done|done| |  |done].
      + intros out. apply Hr. unfold written_keys. in_list.
      + intros v. apply Hs. unfold written_keys. in_list. }
  split; [done|]. split; [done|].
  apply (bool_decide_unpack _). vm_compute. exact I.
Qed.

(** X16. A session without a usable URL (the key is missing, or holds
    None, an empty text or another falsy value) ends the run at once: one
    diagnostic event, no worker run, the session state untouched.  The
    runner does not return then: its look-up of the session at that event
    raises TypeError. *)
Theorem missing_url_ends_the_run (name : str) (st : gmap string value) :
  truthy (default VNone (st !! "pull_request_url")) = false ->
  _run_async_impl W name (start st) =
    (Stop,
     {| state := st; branch := None; branches := [];
        emitted := [(mk_event name "system"
          "No pull_request_url found in session state. Please provide a 'pull_request_url' in the session state.",
          st)] |})
  /\ run_code_review_agent W st = Raise TypeError.
Proof.
  intros Hv. split; [by apply run_without_url|].
  unfold run_code_review_agent. by rewrite run_without_url.
Qed.

(** X17. A truthy URL that is not a string (a number, a list, an object)
    makes the run raise TypeError before any event is yielded and before
    any worker is run; the runner raises it to its caller. *)
Theorem non_string_url_raises (name : str) (st : gmap string value) (v : value) :
  st !! "pull_request_url" = Some v -> truthy v = true -> is_str v = false ->
  _run_async_impl W name (start st) = (Fail TypeError, start st)
  /\ run_code_review_agent W st = Raise TypeError.
Proof.
  intros Hv Ht Hs.
  assert (forall n, _run_async_impl W n (start st) = (Fail TypeError, start st))
    as Hrun by (intros n; by apply (run_non_string_url W n (start st) v)).
  split; [done|]. unfold run_code_review_agent. by rewrite Hrun.
Qed.

(** X18. The runner never returns a payload: whatever the workers do and
    whatever the session state, it raises TypeError.  Either the agent
    raises it on a URL that is not a string, before it yields anything;
    or the runner's look-up of the session, which passes the session id
    by position, raises it at the first event, which is the agent's own
    diagnostic or announcement, yielded while the session state is still
    the one the run started with. *)
Theorem run_code_review_agent_always_raises (st : gmap string value) :
  let run := _run_async_impl W app_name (start st) in
  run_code_review_agent W st = Raise TypeError
  /\ (run = (Fail TypeError, start st)
      \/ exists ev rest,
           emitted run.2 = (ev, st) :: rest
           /\ author ev = app_name
           /\ observe VNone (ev, st) = Raise TypeError).
Proof.
  intros run. split; [apply runner_raises|].
  destruct (first_event_own app_name st) as [Hrun|(ev & rest & He & Ha & [c Hc])].
  - by left.
  - right. exists ev, rest. split; [done|]. split; [done|].
    unfold observe. simpl. by rewrite Hc.
Qed.

(** X19. A run that completes has passed every gate: the outputs of
    fetching, analysing and correcting are all stored at the end, and the
    final result is the one the stored review determines. *)
Theorem completed_run_passed_every_gate (name : str) (st : gmap string value) :
  let run := _run_async_impl W name (start st) in
  run.1 = Continue tt ->
  stored "pr_details" run.2 /\ stored "code_analysis" run.2
  /\ stored "review_comments" run.2
  /\ state run.2 !! "final_result" = Some (final_of (state run.2)).
Proof.
  intros run Hgo.
  destruct (run_cases W name (fun _ => True) (start st))
    as [[Hnc _]|(info & r3 & _ & Hp & Ha & Hr & Hrun)].
  - by repeat split.
  - done.
  - by destruct (Hnc tt).
  - assert (Hst : forall k, Preserved (stored k) (last_steps W name info)).
    { intros k. destruct (stored_stable k [lit "post_review_comments"] ["post_result"])
        as (Hy & Hb & Hs).
      apply last_steps_keeps; [done| | |].
      - apply Hb, list_elem_of_here.
      - intros out. apply Hs, list_elem_of_here.
      - intros v r Hk. unfold stored in *. simpl.
        destruct (decide ("final_result" = k)) as [<-|Hne].
        + rewrite lookup_insert_eq. by eexists.
        + by rewrite lookup_insert_ne. }
    assert (Hrc : Preserved
              (fun r => state r !! "review_comments" = state r3 !! "review_comments")
              (last_steps W name info)).
    { apply last_steps_keeps.
      - by intros ev r Hk.
      - by intros r Hk.
      - intros out. apply preserved_run_async. intros l r Hk.
        by rewrite deliver_fold_other.
      - intros v r Hk. simpl. by rewrite lookup_insert_ne. }
    destruct (last_steps_run W name info r3) as (_ & _ & _ & Hfin & Hposted).
    unfold run in *. rewrite Hrun in *.
    split; [by apply Hst|]. split; [by apply Hst|]. split; [by apply Hst|].
    rewrite (Hfin (Hposted _ Hgo)). unfold final_of. by rewrite (Hrc r3 eq_refl).
Qed.

(** X20. When the generating worker stores no draft and the session has
    none, the corrector is never run.  If the session has no review
    either, the run is halted at the third gate: it does not complete,
    no review is stored and posting is never run. *)
Theorem silent_generation_skips_the_corrector (name : str)
    (st : gmap string value) :
  (forall ca s,
     Forall (fun e => e.2 = None) (events (generate_review_comments W ca s))) ->
  st !! "raw_review_comments" = None ->
  let run := _run_async_impl W name (start st) in
  (lit "structure_output_raw_review_comments_review_comments" ∉ branches run.2)
  /\ (st !! "review_comments" = None ->
        run.1 <> Continue tt
        /\ state run.2 !! "review_comments" = None
        /\ not_posted run.2).
Proof.
  intros Hsilent Hraw run.
  set (fix_ := lit "structure_output_raw_review_comments_review_comments").
  set (I := fun r : Run =>
    state r !! "raw_review_comments" = None
    /\ (fix_ ∉ branches r)
    /\ state r !! "review_comments" = st !! "review_comments"
    /\ not_posted r).
  assert (Hother : forall k out, k <> "raw_review_comments" ->
            k <> "review_comments" -> Preserved I (run_async k out)).
  { intros k out Hk1 Hk2. apply preserved_run_async.
    intros l r (Hr & Hf & Hc & Hp). unfold I, not_posted.
    rewrite !deliver_fold_other by done.
    by destruct (deliver_fold_branches k l r) as [-> _]. }
  assert (HI : StableFor W I).
  { split; [by intros ev r Hr|]. split; [|split; [|split; [|split]]].
    - intros n Hn r (Hr & Hf & Hc & Hp). unfold I, not_posted. simpl.
      split; [done|]. split; [|split; [done|]].
      + rewrite elem_of_app, list_elem_of_singleton. intros [?|Heq]; [done|].
        subst n. revert Hn. rewrite !elem_of_cons, elem_of_nil. vm_compute.
        intros [?|[?|[?|[]]]]; discriminate.
      + rewrite elem_of_app, list_elem_of_singleton. intros [?|Heq]; [done|].
        subst n. revert Hn. rewrite !elem_of_cons, elem_of_nil. vm_compute.
        intros [?|[?|[?|[]]]]; discriminate.
    - intros. by apply Hother.
    - intros. by apply Hother.
    - intros ca s r (Hr & Hf & Hc & Hp). rewrite run_async_run.
      unfold I, not_posted. simpl.
      rewrite deliver_fold_silent by apply Hsilent.
      by destruct (deliver_fold_branches "raw_review_comments"
                     (events (generate_review_comments W ca s)) r) as [-> _].
    - intros r (Hr & _) [x Hx]. rewrite Hr in Hx. discriminate. }
  assert (H0 : I (start st)).
  { split; [done|]. split; [apply not_elem_of_nil|]. split; [done|].
    apply not_elem_of_nil. }
  destruct (run_cases W name I (start st) HI H0)
    as [[Hnc (Hr & Hf & Hc & Hp)]|(info & r3 & (Hr & Hf & Hc & Hp) & _ & _ & [x Hx] & Hrun)].
  - split; [done|]. intros Hnone. split; [apply Hnc|].
    split; [unfold run; congruence|done].
  - split.
    + destruct (last_steps_run W name info r3) as (_ & Hb & _).
      unfold run. rewrite Hrun, Hb. rewrite elem_of_app. intros [?|Hin]; [done|].
      destruct (truthy _); [|by apply elem_of_nil in Hin].
      apply list_elem_of_singleton in Hin. revert Hin. vm_compute. discriminate.
    + intros Hnone. congruence.
Qed.

(** X21. When the corrector stores nothing and the session has no
    review, the run is halted at the third gate whatever the other workers
    stored: it does not complete, no review is stored, posting is never
    run and a session without a final result still has none. *)
Theorem uncorrected_draft_halts_the_run (name : str) (st : gmap string value) :
  (forall s, Forall (fun e => e.2 = None) (events (structure_output_agent W s))) ->
  st !! "review_comments" = None ->
  let run := _run_async_impl W name (start st) in
  run.1 <> Continue tt
  /\ state run.2 !! "review_comments" = None
  /\ not_posted run.2
  /\ state run.2 !! "final_result" = st !! "final_result".
Proof.
  intros Hsilent Hnone run.
  set (I := fun r : Run =>
    state r !! "review_comments" = None
    /\ not_posted r
    /\ state r !! "final_result" = st !! "final_result").
  assert (Hother : forall k out, k <> "review_comments" ->
            k <> "final_result" -> Preserved I (run_async k out)).
  { intros k out Hk1 Hk2. apply preserved_run_async.
    intros l r (Hc & Hp & Hf). unfold I, not_posted.
    rewrite !deliver_fold_other by done.
    by destruct (deliver_fold_branches k l r) as [-> _]. }
  assert (Hbranch : forall n, n <> lit "post_review_comments" ->
            Preserved I (set_branch n)).
  { intros n Hn r (Hc & Hp & Hf). unfold I, not_posted. simpl.
    split; [done|]. split; [|done].
    rewrite elem_of_app, list_elem_of_singleton. intros [?|Heq]; [done|].
    by subst n. }
  assert (HI : StableFor W I).
  { split; [by intros ev r Hr|]. split; [|split; [|split; [|split]]].
    - intros n Hn. apply Hbranch. intros ->. revert Hn.
      rewrite !elem_of_cons, elem_of_nil. vm_compute.
      intros [?|[?|[?|[]]]]; discriminate.
    - intros. by apply Hother.
    - intros. by apply Hother.
    - intros. by apply Hother.
    - intros r Hr _. unfold structure_output. rewrite bind_run.
      pose proof (Hbranch
        (lit "structure_output_raw_review_comments_review_comments")) as Hb.
      specialize (Hb ltac:(vm_compute; discriminate) r Hr).
      destruct (set_branch _ r) as [[[]| |e] r1] eqn:E; try discriminate.
      simpl in Hb. rewrite bind_run. cbn [get_state]. rewrite run_async_run.
      destruct Hb as (Hc & Hp & Hf). unfold I, not_posted. simpl.
      rewrite deliver_fold_silent.
      + by destruct (deliver_fold_branches "review_comments"
            (map (fun e => (e.1, val <$> e.2))
               (events (structure_output_agent W (state r1))))
            r1) as [-> _].
      + apply Forall_map. eapply Forall_impl; [apply Hsilent|].
        intros [ev [x|]] Hx; simpl in *; [discriminate|done]. }
  assert (H0 : I (start st)).
  { split; [done|]. split; [apply not_elem_of_nil|done]. }
  destruct (run_cases W name I (start st) HI H0)
    as [[Hnc (Hc & Hp & Hf)]|(info & r3 & (Hc & _) & _ & _ & [x Hx] & _)].
  - split; [apply Hnc|]. by repeat split.
  - rewrite Hc in Hx. discriminate.
Qed.

End RunProperties.

(* ===================================================================== *)
(** ** Further properties: the endpoint *)
(* ===================================================================== *)

Section EndpointProperties.
Import BashTool Agent Main Server.
Context `{UnicodeData}.
Variable W : Workers.

Lemma request_session_state_rule d :
  let criteria := default (VDict []) (dict_get (lit "review_criteria") d) in
  match request_session_state d with
  | None => dict_has (lit "pull_request_url") d = false
  | Some (Raise e) =>
    dict_has (lit "pull_request_url") d = true
    /\ e = AttributeError /\ truthy criteria = true /\ is_dict criteria = false
  | Some (Ok _) =>
    dict_has (lit "pull_request_url") d = true
    /\ (truthy criteria = false \/ is_dict criteria = true)
  end.
Proof.
  intros criteria. unfold request_session_state. fold criteria.
  destruct (dict_has (lit "pull_request_url") d) eqn:Hh.
  - assert (truthy (VDict d) = true) as -> by (by destruct d).
    simpl.
    destruct (validate_review_criteria_cases criteria)
      as [(Ht & E)|[(items & Hi & Ht & E)|(Ht & Hnd & E)]]; rewrite E.
    + split; [done|]. by left.
    + split; [done|]. right. by rewrite Hi.
    + split; [done|]. split; [done|]. split; [done|].
      destruct criteria as [| | | | | |items]; try done. by destruct (Hnd items).
  - by rewrite orb_true_r.
Qed.

Lemma endpoint_non_object data :
  is_dict data = false ->
  agent_endpoint W data = bad_request
  \/ agent_endpoint W data = server_error TypeError.
Proof.
  intros Hd. destruct data; try discriminate; unfold agent_endpoint;
    (destruct (negb (truthy _)); [by left|]); simpl; try (by right).
  - destruct (negb _); first [by left|by right].
  - destruct (negb _); first [by left|by right].
Qed.

(** X22. The endpoint never answers 200.  Every parsed JSON body gets
    the fixed 400 object "pull_request_url is required" or a 500 reply
    that reports a TypeError or an AttributeError. *)
Theorem endpoint_replies (data : value) :
  let reply := agent_endpoint W data in
  (reply = bad_request
   \/ reply = server_error TypeError
   \/ reply = server_error AttributeError)
  /\ status reply <> 200%Z.
Proof.
  intros reply.
  assert (reply = bad_request \/ reply = server_error TypeError
          \/ reply = server_error AttributeError) as Hcases.
  { destruct (is_dict data) eqn:Hd.
    - destruct data as [| | | | | |d]; try discriminate.
      unfold reply, agent_endpoint.
      pose proof (request_session_state_rule d) as Hrule.
      destruct (request_session_state d) as [[st|e]|].
      + rewrite runner_raises. by right; left.
      + destruct Hrule as (_ & -> & _). by right; right.
      + by left.
    - destruct (endpoint_non_object data Hd) as [E|E]; unfold reply; rewrite E.
      + by left.
      + by right; left. }
  split; [exact Hcases|].
  destruct Hcases as [->|[->| ->]]; discriminate.
Qed.

(** X23. The reply to a JSON object, in the order the code decides it:
    the 400 reply without the key "pull_request_url" (also for the empty
    object); else 500 with the AttributeError of the criteria when
    "review_criteria" is truthy and not an object; else 500 with the
    TypeError the runner raises, whatever the URL and the workers. *)
Theorem endpoint_status_rule (d : dict) :
  let criteria := default (VDict []) (dict_get (lit "review_criteria") d) in
  agent_endpoint W (VDict d) =
    if negb (dict_has (lit "pull_request_url") d) then bad_request
    else if truthy criteria && negb (is_dict criteria)
         then server_error AttributeError
         else server_error TypeError.
Proof.
  intros criteria. unfold agent_endpoint.
  pose proof (request_session_state_rule d) as Hrule. fold criteria in Hrule.
  destruct (request_session_state d) as [[st|e]|].
  - destruct Hrule as [-> Hcrit]. simpl. rewrite runner_raises.
    by destruct Hcrit as [->| ->]; [|rewrite andb_false_r].
  - by destruct Hrule as (-> & -> & -> & ->).
  - by rewrite Hrule.
Qed.

End EndpointProperties.

(* ===================================================================== *)
(** ** Concrete runs *)
(* ===================================================================== *)

Section PipelineExamples.
Import BashTool Agent Main Server.
#[local] Existing Instance ascii_tables.

Lemma segment_intro (s : str) :
  s <> [] -> bool_decide (47 ∈ s) = false -> segment s.
Proof. intros Hs Hd. split; [done|]. by apply bool_decide_eq_false in Hd. Qed.

Lemma parse_pr_url_matches_prefix_witness :
  exists info,
    _parse_pr_url (VStr (lit "https://github.com/o/r/pull/123/files"))
      = Ok (Some info)
    /\ owner info = lit "o" /\ repo info = lit "r"
    /\ pr_number info = lit "123".
Proof.
  destruct (parse_pr_url_matches_prefix (lit "o") (lit "r") (lit "123") (lit "/files"))
    as (info & Hp & Ho & Hr & Hn & _).
  - by apply segment_intro.
  - by apply segment_intro.
  - split; [done|]. repeat constructor.
  - exists info. split; [exact Hp|]. split; [exact Ho|]. split; [exact Hr|].
    rewrite Hn. reflexivity.
Defined.

Lemma pr_url_validation_witness :
  session_for acme_url !! "pull_request_url" = Some (VStr acme_url)
  /\ (exists info,
        match_pr_url acme_url = Some info
        /\ github_pr_prefix acme_url info
        /\ pr_number info = lit "42"
        /\ head (branches (_run_async_impl silent app_name
                             (start (session_for acme_url))).2)
           = Some (lit "fetch_pr_details"))
  /\ session_for gitlab_url !! "pull_request_url" = Some (VStr gitlab_url)
  /\ _parse_pr_url (VStr gitlab_url) = Ok None
  /\ exists diagnostic,
       _run_async_impl silent app_name (start (session_for gitlab_url))
       = (Stop,
          {| state := session_for gitlab_url; branch := None; branches := [];
             emitted := [(mk_event app_name "system" diagnostic,
                          session_for gitlab_url)] |}).
Proof.
  split; [reflexivity|].
  destruct (pr_url_validation silent app_name (session_for acme_url) acme_url
              eq_refl) as (Hiff & _ & Hgo).
  destruct (pr_url_validation silent app_name (session_for gitlab_url) gitlab_url
              eq_refl) as (Hiff' & Hhalt & _).
  split; [|split; [reflexivity|]].
  - eexists. split; [reflexivity|]. split; [by apply Hiff|].
    split; [reflexivity|].
    edestruct Hgo as (_ & bl & el & -> & _); [by apply Hiff|]. reflexivity.
  - apply Hhalt. intros info Hinfo. apply Hiff' in Hinfo. discriminate.
Defined.

(** C2 as stated fails in its second half: the text below has the shape
    https://<host>/<owner>/<repo>/pull/<digits>, yet parsing returns
    nothing and the run ends with the diagnostic, before any worker. *)
Lemma pattern_url_on_other_host_is_rejected :
  spec_pr_url gitlab_url
  /\ session_for gitlab_url !! "pull_request_url" = Some (VStr gitlab_url)
  /\ _parse_pr_url (VStr gitlab_url) = Ok None
  /\ (_run_async_impl silent app_name (start (session_for gitlab_url))).1 = Stop
  /\ branches (_run_async_impl silent app_name (start (session_for gitlab_url))).2
     = [].
Proof.
  split.
  - exists (lit "gitlab.com"), (lit "acme"), (lit "widgets"), (lit "42").
    repeat split; try (by apply segment_intro); try done.
    repeat constructor.
  - repeat split; vm_compute; reflexivity.
Qed.

Lemma halted_run_stores_no_result_witness :
  let run := _run_async_impl silent app_name (start (session_for acme_url)) in
  session_for acme_url !! "final_result" = None
  /\ run.1 = Stop
  /\ branches run.2 = [lit "fetch_pr_details"]
  /\ state run.2 !! "final_result" = None.
Proof.
  intros run.
  destruct (halted_run_stores_no_result silent (session_for acme_url) eq_refl)
    as (Hhalt & Hfetch & _).
  destruct (Hfetch acme_url _ eq_refl eq_refl eq_refl (Forall_nil_2 _) eq_refl)
    as [Hstop Hb].
  destruct (Hhalt Hstop) as [Hnone _].
  split; [reflexivity|]. split; [exact Hstop|]. split; [exact Hb|exact Hnone].
Defined.

(** C1 as stated fails: for the request {"pull_request_url": url} with
    a fetching worker that stores nothing, the run is halted at the first
    gate, the agent's fallback with success true is not stored, and the
    caller receives no payload; the payload the runner would substitute
    for the missing result has success false. *)
Lemma fetch_failure_yields_no_fallback :
  let run := _run_async_impl silent app_name (start (session_for acme_url)) in
  request_session_state (request_for acme_url) = Some (Ok (session_for acme_url))
  /\ run.1 = Stop
  /\ branches run.2 = [lit "fetch_pr_details"]
  /\ state run.2 !! "final_result" = None
  /\ run_code_review_agent silent (session_for acme_url) = Raise TypeError
  /\ returned_payload (default VNone (state run.2 !! "final_result")) = no_result
  /\ result_get no_result "success" VNone = Ok (VBool false)
  /\ result_get fallback_result "success" VNone = Ok (VBool true)
  /\ no_result <> fallback_result.
Proof.
  intros run. repeat split; try (vm_compute; reflexivity). discriminate.
Qed.

Lemma generate_final_result_verbatim_or_fallback_witness :
  let reviewed := start (<["review_comments" := val sample_review]> ∅) in
  state (_generate_final_result app_name reviewed).2 !! "final_result"
    = Some (val sample_review)
  /\ state (_generate_final_result app_name (start ∅)).2 !! "final_result"
     = Some fallback_result.
Proof.
  intros reviewed.
  destruct (generate_final_result_verbatim_or_fallback app_name reviewed)
    as (_ & _ & Hkeep & _).
  destruct (generate_final_result_verbatim_or_fallback app_name (start ∅))
    as (_ & _ & _ & Hnone & _).
  split; [apply Hkeep; reflexivity|apply Hnone; reflexivity].
Defined.

(** C6 as stated fails in its second half: a text stored under
    "review_comments" is not a validated ReviewResult, yet the final
    result is that text and not the fallback. *)
Lemma unvalidated_review_is_stored_verbatim :
  let free_text := VStr (lit "free text") in
  let r := start (<["review_comments" := free_text]> ∅) in
  conforms_ReviewResult free_text = false
  /\ (_generate_final_result app_name r).1 = Continue tt
  /\ state (_generate_final_result app_name r).2 !! "final_result"
     = Some free_text
  /\ free_text <> fallback_result.
Proof.
  intros free_text r. repeat split; try (vm_compute; reflexivity). discriminate.
Qed.



Lemma missing_url_ends_the_run_witness :
  truthy (default VNone (session_for [] !! "pull_request_url")) = false
  /\ (_run_async_impl silent app_name (start (session_for []))).1 = Stop
  /\ run_code_review_agent silent (session_for []) = Raise TypeError.
Proof.
  destruct (missing_url_ends_the_run silent app_name (session_for []) eq_refl)
    as [Hrun Hres].
  split; [reflexivity|]. split; [by rewrite Hrun|exact Hres].
Defined.

Lemma non_string_url_raises_witness :
  let st : gmap string value := <["pull_request_url" := VInt 7]> ∅ in
  st !! "pull_request_url" = Some (VInt 7)
  /\ truthy (VInt 7) = true /\ is_str (VInt 7) = false
  /\ run_code_review_agent silent st = Raise TypeError.
Proof.
  intros st.
  destruct (non_string_url_raises silent app_name st (VInt 7)
              eq_refl eq_refl eq_refl) as [_ Hres].
  split; [reflexivity|]. split; [reflexivity|]. split; [reflexivity|exact Hres].
Defined.

Lemma completed_run_passed_every_gate_witness :
  let run := _run_async_impl diligent app_name (start (session_for acme_url)) in
  run.1 = Continue tt
  /\ stored "pr_details" run.2 /\ stored "code_analysis" run.2
  /\ stored "review_comments" run.2
  /\ state run.2 !! "final_result" = Some (val sample_review).
Proof.
  intros run.
  assert (Hgo : run.1 = Continue tt) by (vm_compute; reflexivity).
  destruct (completed_run_passed_every_gate diligent app_name
              (session_for acme_url) Hgo) as (Hp & Ha & Hr & _).
  split; [exact Hgo|]. split; [exact Hp|]. split; [exact Ha|].
  split; [exact Hr|]. vm_compute. reflexivity.
Defined.

Lemma silent_generation_skips_the_corrector_witness :
  let run := _run_async_impl undrafted app_name (start (session_for acme_url)) in
  session_for acme_url !! "raw_review_comments" = None
  /\ session_for acme_url !! "review_comments" = None
  /\ branches run.2 = [lit "fetch_pr_details"; lit "analyze_code_changes";
                       lit "generate_review_comments"]
  /\ run.1 = Stop
  /\ state run.2 !! "review_comments" = None.
Proof.
  intros run.
  destruct (silent_generation_skips_the_corrector undrafted app_name
              (session_for acme_url)) as [_ Hhalt].
  - intros ca s. constructor.
  - reflexivity.
  - destruct (Hhalt eq_refl) as (_ & Hnone & _).
    split; [reflexivity|]. split; [reflexivity|].
    split; [vm_compute; reflexivity|]. split; [vm_compute; reflexivity|].
    exact Hnone.
Defined.

Lemma uncorrected_draft_halts_the_run_witness :
  let run := _run_async_impl unstructured app_name (start (session_for acme_url)) in
  session_for acme_url !! "review_comments" = None
  /\ branches run.2 = [lit "fetch_pr_details"; lit "analyze_code_changes";
                       lit "generate_review_comments";
                       lit "structure_output_raw_review_comments_review_comments"]
  /\ run.1 = Stop
  /\ is_Some (state run.2 !! "raw_review_comments")
  /\ state run.2 !! "review_comments" = None
  /\ state run.2 !! "final_result" = None.
Proof.
  intros run.
  destruct (uncorrected_draft_halts_the_run unstructured app_name
              (session_for acme_url)) as (_ & Hnone & _ & Hfin).
  - intros s. constructor.
  - reflexivity.
  - split; [reflexivity|]. split; [vm_compute; reflexivity|].
    split; [vm_compute; reflexivity|]. split; [vm_compute; by eexists|].
    split; [exact Hnone|exact Hfin].
Defined.

End PipelineExamples.
